(** * SoftwareMaintenanceClassification: repository collector and commit classifiers

    A shallow embedding of [src/github_commit_collector.py],
    [src/generate_results_gemini.py] and [src/generate_results_gpt.py].

    Conventions of the embedding:
    - a Python [str] is a Rocq [string]; each character stands for the code
      point of the same number (0..255), so the character classes below are
      the ones Python uses on those code points;
    - a Python [int] is a [Z]; a [float] is a binary64 [spec_float];
    - a [set] is a [gset], a [dict] with string keys a [gmap];
    - output ([print], [tqdm]) and calls to the remote services are events of
      a trace; an exception is the left injection of the result. *)

From Stdlib Require Import ZArith List String Ascii Bool Lia.
From Stdlib Require Import Floats.SpecFloat.
From stdpp Require Import gmap strings list pretty.

Open Scope Z_scope.

(** ** The Python runtime the three scripts rely on *)

Module Py.

(** *** Exceptions, traces and the result of a call *)

(** The exception classes the scripts can meet; every one of them is a
    subclass of [Exception].  [str(e)] is the carried message. *)
Inductive exn : Type :=
| ValueError (msg : string)
| IndexError (msg : string)
| TypeError (msg : string)
| ZeroDivisionError (msg : string)
| OverflowError (msg : string)
| ServiceError (msg : string).

Definition exn_str (e : exn) : string :=
  match e with
  | ValueError m | IndexError m | TypeError m
  | ZeroDivisionError m | OverflowError m | ServiceError m => m
  end.

(** What the outside world observes of a run. *)
Inductive event : Type :=
| Print (line : string)                       (* print(...) *)
| Progress (desc : string)                    (* a tqdm progress bar *)
| GetCommits (full_name : string)             (* repo.get_commits(since, until) *)
| GetPulls (full_name : string)               (* repo.get_pulls(...) *)
| IsMerged (full_name : string) (number : Z)  (* pr.is_merged() *)
| GenerateContent (prompt : string)           (* model.generate_content *)
| ChatCompletion (model : string) (messages : list (string * string)).

Definition result (A : Type) : Type := exn + A.

(** A computation: the events it emitted, and either the exception that
    ended it or its value. *)
Definition M (A : Type) : Type := list event * result A.

Definition ret {A} (a : A) : M A := ([], inr a).
Definition raise {A} (e : exn) : M A := ([], inl e).
Definition emit (ev : event) : M unit := ([ev], inr tt).
Definition lift {A} (r : result A) : M A := ([], r).

Definition bind {A B} (m : M A) (k : A -> M B) : M B :=
  match m with
  | (t, inl e) => (t, inl e)
  | (t, inr a) => let '(t', r) := k a in (t ++ t', r)
  end.

(** [try: body except Exception as e: handler(e)] *)
Definition try_except {A} (body : M A) (handler : exn -> M A) : M A :=
  match body with
  | (t, inl e) => let '(t', r) := handler e in (t ++ t', r)
  | (t, inr a) => (t, inr a)
  end.

Definition trace {A} (m : M A) : list event := fst m.
Definition outcome {A} (m : M A) : result A := snd m.

#[global] Instance M_ret : MRet M := @ret.
#[global] Instance M_bind : MBind M := fun A B k m => bind m k.

(** A computation over a mutable object of type [S] that outlives an
    exception: what was written to it before a [raise] stays written. *)
Definition MS (S A : Type) : Type := S -> list event * S * result A.

Definition ret_s {S A} (a : A) : MS S A := fun s => ([], s, inr a).

Definition bind_s {S A B} (m : MS S A) (k : A -> MS S B) : MS S B :=
  fun s =>
    match m s with
    | (t, s', inl e) => (t, s', inl e)
    | (t, s', inr a) => let '(t', s'', r) := k a s' in (t ++ t', s'', r)
    end.

#[global] Instance MS_ret {S} : MRet (MS S) := @ret_s S.
#[global] Instance MS_bind {S} : MBind (MS S) := fun A B k m => bind_s m k.

(** Run a computation that does not touch the object. *)
Definition lift_s {S A} (m : M A) : MS S A :=
  fun s => (fst m, s, snd m).

Definition modify {S} (f : S -> S) : MS S unit :=
  fun s => ([], f s, inr tt).

Definition try_except_s {S A} (body : MS S A) (handler : exn -> MS S A)
  : MS S A :=
  fun s =>
    match body s with
    | (t, s', inl e) => let '(t', s'', r) := handler e s' in (t ++ t', s'', r)
    | (t, s', inr a) => (t, s', inr a)
    end.

(** The object a computation leaves behind, when it ends normally. *)
Definition exec_s {S} (m : MS S unit) (s : S) : M S :=
  match m s with
  | (t, _, inl e) => (t, inl e)
  | (t, s', inr _) => (t, inr s')
  end.

(** [for x in l: s = body(x, s)] on a list *)
Fixpoint for_list {A S} (l : list A) (body : A -> S -> M S) (s : S) : M S :=
  match l with
  | [] => ret s
  | x :: l' => bind (body x s) (for_list l' body)
  end.

(** [for x in l: b = body(x, b)] over a mutable object *)
Fixpoint fold_s {A B S} (l : list A) (body : A -> B -> MS S B) (b : B)
  : MS S B :=
  match l with
  | [] => ret_s b
  | x :: l' => bind_s (body x b) (fold_s l' body)
  end.

(** [for x in l: body(x)] over a mutable object *)
Fixpoint for_list_s {A S} (l : list A) (body : A -> MS S unit) : MS S unit :=
  match l with
  | [] => ret_s tt
  | x :: l' => bind_s (body x) (fun _ => for_list_s l' body)
  end.

(** *** Strings *)

Definition ord (c : ascii) : Z := Z.of_N (N_of_ascii c).
Definition chr (n : Z) : ascii := ascii_of_N (Z.to_N n).

(** [str.isspace] on one character: the whitespace [strip()] and
    [split()] use. *)
Definition isspace (c : ascii) : bool :=
  let n := ord c in
  ((9 <=? n) && (n <=? 13)) || ((28 <=? n) && (n <=? 32))
  || (n =? 133) || (n =? 160).

(** The characters [\w] matches in a [str] pattern: alphanumerics and the
    underscore. *)
Definition is_word (c : ascii) : bool :=
  let n := ord c in
  ((48 <=? n) && (n <=? 57)) || ((65 <=? n) && (n <=? 90))
  || (n =? 95) || ((97 <=? n) && (n <=? 122))
  || (n =? 170) || (n =? 178) || (n =? 179) || (n =? 181)
  || (n =? 185) || (n =? 186) || ((188 <=? n) && (n <=? 190))
  || ((192 <=? n) && (n <=? 214)) || ((216 <=? n) && (n <=? 246))
  || ((248 <=? n) && (n <=? 255)).

Definition lower_char (c : ascii) : ascii :=
  let n := ord c in
  if ((65 <=? n) && (n <=? 90))
     || ((192 <=? n) && (n <=? 222) && negb (n =? 215))
  then chr (n + 32) else c.

(** [s.lower()] *)
Fixpoint lower (s : string) : string :=
  match s with
  | EmptyString => EmptyString
  | String c s' => String (lower_char c) (lower s')
  end.

Fixpoint startswith (s p : string) {struct p} : bool :=
  match p, s with
  | EmptyString, _ => true
  | String _ _, EmptyString => false
  | String a p', String b s' => if Ascii.eqb a b then startswith s' p' else false
  end.

(** [sub in s] on strings: [sub] occurs in [s] as a substring. *)
Fixpoint contains (sub s : string) : bool :=
  startswith s sub
  || match s with
     | EmptyString => false
     | String _ s' => contains sub s'
     end.

(** [s.lstrip()], [s.rstrip()] and [s.strip()] *)
Fixpoint lstrip (s : string) : string :=
  match s with
  | EmptyString => EmptyString
  | String c s' => if isspace c then lstrip s' else s
  end.

Fixpoint rstrip (s : string) : string :=
  match s with
  | EmptyString => EmptyString
  | String c s' =>
      match rstrip s' with
      | EmptyString => if isspace c then EmptyString else String c EmptyString
      | t => String c t
      end
  end.

Definition strip (s : string) : string := rstrip (lstrip s).

(** [s.split()]: the maximal runs of non-whitespace characters, in order.
    [cur] is the run being read, reversed. *)
Fixpoint split_go (cur : string) (s : string) : list string :=
  match s with
  | EmptyString =>
      match cur with EmptyString => [] | _ => [String.rev cur] end
  | String c s' =>
      if isspace c then
        match cur with
        | EmptyString => split_go EmptyString s'
        | _ => String.rev cur :: split_go EmptyString s'
        end
      else split_go (String c cur) s'
  end.

Definition split (s : string) : list string := split_go EmptyString s.

(** [len(re.findall(r"\w+", s))]: the number of maximal runs of word
    characters.  [inword] tells whether the previous character was one. *)
Fixpoint count_words_go (inword : bool) (s : string) : Z :=
  match s with
  | EmptyString => 0
  | String c s' =>
      if is_word c
      then (if inword then 0 else 1) + count_words_go true s'
      else count_words_go false s'
  end.

Definition count_words (s : string) : Z := count_words_go false s.

(** The newline character, as a string. *)
Definition LF : string := String (chr 10) EmptyString.

(** [', '.join(l)] and the like *)
Fixpoint join (sep : string) (l : list string) : string :=
  match l with
  | [] => EmptyString
  | [x] => x
  | x :: l' => (x ++ sep ++ join sep l')%string
  end.

(** [l[0]] *)
Definition item0 {A} (l : list A) : result A :=
  match l with
  | [] => inl (IndexError "list index out of range")
  | x :: _ => inr x
  end.

(** [x or y] where [x] is an optional list: [None] and the empty list
    are falsy. *)
Definition or_list {A} (x : option (list A)) (y : list A) : list A :=
  match x with
  | Some (a :: l) => a :: l
  | Some [] | None => y
  end.

(** [x or y] where [x] is an optional string. *)
Definition or_str (x : option string) (y : string) : string :=
  match x with
  | Some (String c s) => String c s
  | Some EmptyString | None => y
  end.

(** [sum(l)] on integers *)
Definition sum (l : list Z) : Z := fold_left Z.add l 0.

(** *** Floats: [int / int] and [float < int] *)

Definition float : Type := spec_float.

Definition float_of_int (z : Z) : float :=
  match z with
  | Z0 => S754_zero false
  | Zpos p => S754_finite false p 0
  | Zneg p => S754_finite true p 0
  end.

(** [a / b] on integers: the binary64 nearest to the quotient.  A zero
    divisor raises [ZeroDivisionError]; a quotient beyond the largest
    float raises [OverflowError]. *)
Definition truediv (a b : Z) : result float :=
  if b =? 0 then inl (ZeroDivisionError "division by zero")
  else
    match SFdiv 53 1024 (float_of_int a) (float_of_int b) with
    | S754_infinity _ =>
        inl (OverflowError "integer division result too large for a float")
    | q => inr q
    end.

(** [x < n] for a float [x] and an integer [n]: Python compares the two
    numbers exactly. *)
Definition float_lt_int (x : float) (n : Z) : bool :=
  match x with
  | S754_zero _ => 0 <? n
  | S754_finite s m e =>
      let v := cond_Zopp s (Zpos m) in
      if 0 <=? e then v * 2 ^ e <? n else v <? n * 2 ^ (- e)
  | S754_infinity s => s
  | S754_nan => false
  end.

(** *** [datetime]: calendar fields and [isocalendar()] *)

(** A timezone-aware [datetime] in UTC. *)
Record datetime : Type := mk_datetime
  { year : Z; month : Z; day : Z; hour : Z; minute : Z; second : Z }.

Definition is_leap (y : Z) : bool :=
  (y mod 4 =? 0) && (negb (y mod 100 =? 0) || (y mod 400 =? 0)).

Definition days_before_year (y : Z) : Z :=
  let y' := y - 1 in y' * 365 + y' / 4 - y' / 100 + y' / 400.

Definition DAYS_IN_MONTH : list Z :=
  [-1; 31; 28; 31; 30; 31; 30; 31; 31; 30; 31; 30; 31].

Definition DAYS_BEFORE_MONTH : list Z :=
  [-1; 0; 31; 59; 90; 120; 151; 181; 212; 243; 273; 304; 334].

Definition days_in_month (y m : Z) : Z :=
  if (m =? 2) && is_leap y then 29 else nth (Z.to_nat m) DAYS_IN_MONTH 0.

Definition days_before_month (y m : Z) : Z :=
  nth (Z.to_nat m) DAYS_BEFORE_MONTH 0
  + (if (2 <? m) && is_leap y then 1 else 0).

(** The proleptic Gregorian ordinal of a date; 0001-01-01 is day 1. *)
Definition ymd2ord (y m d : Z) : Z :=
  days_before_year y + days_before_month y m + d.

(** The ordinal of the Monday that starts ISO week 1 of year [y]. *)
Definition isoweek1monday (y : Z) : Z :=
  let THURSDAY := 3 in
  let firstday := ymd2ord y 1 1 in
  let firstweekday := (firstday + 6) mod 7 in
  let week1monday := firstday - firstweekday in
  if THURSDAY <? firstweekday then week1monday + 7 else week1monday.

(** [d.isocalendar()]: (ISO week-year, ISO week number, ISO weekday). *)
Definition isocalendar (d : datetime) : Z * Z * Z :=
  let y := year d in
  let week1monday := isoweek1monday y in
  let today := ymd2ord (year d) (month d) (day d) in
  let week := (today - week1monday) / 7 in
  let wday := (today - week1monday) mod 7 in
  if week <? 0 then
    let y := y - 1 in
    let week1monday := isoweek1monday y in
    let week := (today - week1monday) / 7 in
    let wday := (today - week1monday) mod 7 in
    (y, week + 1, wday + 1)
  else if (52 <=? week) && (isoweek1monday (y + 1) <=? today) then
    (y + 1, 0 + 1, wday + 1)
  else (y, week + 1, wday + 1).

(** The fields of a well-formed [datetime]. *)
Definition valid_datetime (d : datetime) : bool :=
  (1 <=? year d) && (year d <=? 9999)
  && (1 <=? month d) && (month d <=? 12)
  && (1 <=? day d) && (day d <=? days_in_month (year d) (month d))
  && (0 <=? hour d) && (hour d <? 24)
  && (0 <=? minute d) && (minute d <? 60)
  && (0 <=? second d) && (second d <? 60).

End Py.

(** ** [github_commit_collector.py] *)

Module Collector.
Import Py.

(** *** The objects of the hosting-service client *)

(** [commit.commit.author] *)
Record GitAuthor : Type := { author_name : string; date : datetime }.

(** [commit.commit] *)
Record GitCommit : Type := { author : GitAuthor; message : string }.

Record Commit : Type := { sha : string; commit : GitCommit }.

(** A lazily fetched list: iterating it yields items until it ends or
    until the request for the next page fails. *)
Inductive PaginatedList (A : Type) : Type :=
| PageEnd
| PageItem (x : A) (rest : PaginatedList A)
| PageError (e : exn).
Arguments PageEnd {A}.
Arguments PageItem {A} x rest.
Arguments PageError {A} e.

Record NamedUser : Type := { login : string }.

Record PullRequest : Type :=
  { number : Z;
    title : string;
    body : option string;
    user : option NamedUser;
    created_at : datetime;
    state : string;
    is_merged : result bool (* what [pr.is_merged()] answers *) }.

(** What [repo.get_pulls(...)] returns. *)
Record PullRequests : Type :=
  { totalCount : result Z; pulls_pages : PaginatedList PullRequest }.

(** A repository as the hosting service presents it, with the answers the
    service gives to the requests made on it. *)
Record Repository : Type :=
  { full_name : string;
    name : string;
    description : option string;
    fork : bool;
    size : Z;
    get_commits : datetime -> datetime -> PaginatedList Commit;
    get_pulls : string -> string -> string -> result PullRequests }.

(** The paginated list whose iteration yields the items of [l] and then
    ends, no request failing. *)
Fixpoint of_list {A} (l : list A) : PaginatedList A :=
  match l with
  | [] => PageEnd
  | x :: l' => PageItem x (of_list l')
  end.

(** [for x in plist: s = body(x, s)]; a failing page ends the loop with
    its exception. *)
Fixpoint for_paginated {A S} (l : PaginatedList A) (body : A -> S -> M S)
  (s : S) : M S :=
  match l with
  | PageEnd => ret s
  | PageItem x rest => bind (body x s) (for_paginated rest body)
  | PageError e => raise e
  end.

Fixpoint for_paginated_s {A S} (l : PaginatedList A) (body : A -> MS S unit)
  : MS S unit :=
  match l with
  | PageEnd => ret_s tt
  | PageItem x rest => bind_s (body x) (fun _ => for_paginated_s rest body)
  | PageError e => lift_s (raise e)
  end.

(** *** The collector object *)

Record GitHubCommitCollector : Type := mk_collector
  { g : string; (* the client, built from the token *)
    min_commits_2024 : Z;
    min_active_weeks : Z;
    min_avg_words : Z;
    exclusion_keywords : list string;
    exclude_forks : bool;
    repos : option (list Repository);
    valid_repos : option (list Repository) }.

Definition set_valid_repos (self : GitHubCommitCollector)
  (v : option (list Repository)) : GitHubCommitCollector :=
  {| g := g self;
     min_commits_2024 := min_commits_2024 self;
     min_active_weeks := min_active_weeks self;
     min_avg_words := min_avg_words self;
     exclusion_keywords := exclusion_keywords self;
     exclude_forks := exclude_forks self;
     repos := repos self;
     valid_repos := v |}.

Definition default_exclusion_keywords : list string :=
  ["student"; "exercise"; "tutorial"]%string.

(** [__init__].  [fs] is the file system: what opening a path and parsing
    it as JSON gives. *)
Definition __init__ (fs : string -> result (gmap string string))
  (config_path : string) (min_commits_2024 min_active_weeks min_avg_words : Z)
  (exclusion_keywords : option (list string)) (exclude_forks : bool)
  : M GitHubCommitCollector :=
  config ← lift (fs config_path);
  match config !! "github_token"%string with
  | Some (String c t) =>
      let token := String c t in
      ret {| g := token;
             min_commits_2024 := min_commits_2024;
             min_active_weeks := min_active_weeks;
             min_avg_words := min_avg_words;
             exclusion_keywords :=
               or_list exclusion_keywords default_exclusion_keywords;
             exclude_forks := exclude_forks;
             repos := None;
             valid_repos := None |}
  | Some EmptyString | None =>
      raise (ValueError "GitHub token not found in config file.")
  end.

(** *** [_repo_is_valid] *)

(** The bounds of the observation window passed to [get_commits]. *)
Definition since : datetime := mk_datetime 2024 1 1 0 0 0.
Definition until : datetime := mk_datetime 2025 1 1 0 0 0.

(** [text = (repo.name + ' ' + (repo.description or '')).lower()] *)
Definition text (repo : Repository) : string :=
  lower (name repo ++ " " ++ or_str (description repo) "")%string.

(** [any(kw.lower() in text for kw in self.exclusion_keywords)] *)
Definition has_exclusion_keyword (self : GitHubCommitCollector)
  (repo : Repository) : bool :=
  existsb (fun kw => contains (lower kw) (text repo))
    (exclusion_keywords self).

(** [(d.isocalendar()[1], d.year)] *)
Definition week_key (d : datetime) : Z * Z :=
  ((isocalendar d).1.2, year d).

(** [weeks = set((d.isocalendar()[1], d.year) for d in commit_dates)] *)
Definition weeks (commit_dates : list datetime) : gset (Z * Z) :=
  list_to_set (week_key <$> commit_dates).

(** [avg_words = sum(len(re.findall(r"\w+", msg)) for msg in messages)
                 / max(total_commits, 1)] *)
Definition avg_words (messages : list string) (total_commits : Z)
  : result float :=
  truediv (sum (count_words <$> messages)) (Z.max total_commits 1).

Definition _repo_is_valid (self : GitHubCommitCollector) (repo : Repository)
  : M bool :=
  if exclude_forks self && fork repo then
    emit (Print ("Excluding forked repo: " ++ full_name repo)%string);;
    ret false
  else if has_exclusion_keyword self repo then
    emit (Print ("Excluding repo with keywords: " ++ full_name repo)%string);;
    ret false
  else
    emit (GetCommits (full_name repo));;
    emit (Progress ("Analyzing commits in " ++ full_name repo)%string);;
    '(commit_dates, messages) ←
      for_paginated (get_commits repo since until)
        (fun commit '(commit_dates, messages) =>
           ret (commit_dates ++ [date (author (Collector.commit commit))],
                messages ++ [message (Collector.commit commit)]))
        ([], []);
    let total_commits := Z.of_nat (length commit_dates) in
    if total_commits <? min_commits_2024 self then ret false
    else if Z.of_nat (base.size (weeks commit_dates)) <? min_active_weeks self
    then ret false
    else
      avg_words ← lift (avg_words messages total_commits);
      if float_lt_int avg_words (min_avg_words self) then ret false
      else ret true.

(** *** [filter_repos] *)

(** [sig = (repo.full_name, repo.size)] *)
Definition signature (repo : Repository) : string * Z :=
  (full_name repo, size repo).

(** One turn of the loop of [filter_repos] on the locals [valid] and
    [seen_signatures]. *)
Definition filter_step (self : GitHubCommitCollector) (repo : Repository)
  (locals : list Repository * gset (string * Z))
  : M (list Repository * gset (string * Z)) :=
  let '(valid, seen_signatures) := locals in
  ok ← _repo_is_valid self repo;
  if negb ok then ret (valid, seen_signatures) (* continue *)
  else
    let sig := signature repo in
    if bool_decide (sig ∈ seen_signatures)
    then ret (valid, seen_signatures) (* continue *)
    else ret (valid ++ [repo], seen_signatures ∪ {[sig]}).

(** [filter_repos] has no [return] statement: the call evaluates to Python's
    [None], here the [None] of the annotated result type, and the list is
    left in [self.valid_repos]. *)
Definition filter_repos (self : GitHubCommitCollector)
  (repos : list Repository)
  : M (option (list Repository) * GitHubCommitCollector) :=
  emit (Progress "Filtering repositories");;
  '(valid, _) ← for_list repos (filter_step self) ([], ∅);
  ret (None, set_valid_repos self (Some valid)).

(** *** [collect_commits] *)

Record CommitRow : Type :=
  { c_repo_full_name : string;
    c_commit_sha : string;
    c_author : string;
    c_date : datetime;
    c_message : string }.

Definition collect_commits (self : GitHubCommitCollector)
  : M (list CommitRow) :=
  match valid_repos self with
  | None => raise (TypeError "'NoneType' object is not iterable")
  | Some valid_repos =>
      for_list valid_repos
        (fun repo data =>
           emit (GetCommits (full_name repo));;
           for_paginated (get_commits repo since until)
             (fun commit data =>
                let c := Collector.commit commit in
                ret (data ++ [ {| c_repo_full_name := full_name repo;
                                  c_commit_sha := sha commit;
                                  c_author := author_name (author c);
                                  c_date := date (author c);
                                  c_message := strip (message c) |} ]))
             data)
        []
  end.

(** *** [collect_pull_requests] *)

Record PullRow : Type :=
  { repo_full_name : string;
    pr_number : Z;
    pr_title : string;
    pr_body : string;
    pr_author : string;
    pr_created_at : datetime;
    pr_state : string;
    merged : bool }.

(** The body of the inner loop: build the row of [pr], whose last field
    asks the service whether [pr] is merged, and append it to [data]. *)
Definition append_pull_row (repo : Repository) (pr : PullRequest)
  : MS (list PullRow) unit :=
  is_merged ← lift_s (emit (IsMerged (full_name repo) (number pr));;
                      lift (is_merged pr));
  modify (fun data =>
    data ++ [ {| repo_full_name := full_name repo;
                 pr_number := number pr;
                 pr_title := title pr;
                 pr_body := or_str (body pr) "";
                 pr_author := match user pr with
                              | Some u => login u
                              | None => "unknown"
                              end;
                 pr_created_at := created_at pr;
                 pr_state := state pr;
                 merged := is_merged |} ]).

(** The body of the outer loop: the [try] statement on one repository. *)
Definition collect_repo_pulls (repo : Repository) : MS (list PullRow) unit :=
  try_except_s
    (pulls ← lift_s (emit (GetPulls (full_name repo));;
                     lift (get_pulls repo "all" "created" "desc"));
     n ← lift_s (lift (totalCount pulls));
     lift_s (emit (Print ("Collecting PRs from " ++ full_name repo
                          ++ ", total PR's: " ++ pretty n)%string));;
     for_paginated_s (pulls_pages pulls) (append_pull_row repo))
    (fun e =>
       lift_s (emit (Print ("Failed to retrieve PRs from " ++ full_name repo
                            ++ ": " ++ exn_str e)%string))).

Definition collect_pull_requests (self : GitHubCommitCollector)
  (repos : option (list Repository)) : M (list PullRow) :=
  let data := [] in
  let repos := match repos with None => Collector.repos self | _ => repos end in
  match repos with
  | None => raise (TypeError "'NoneType' object is not iterable")
  | Some repos => exec_s (for_list_s repos collect_repo_pulls) data
  end.

(** *** [search_repos] and [run] *)

Definition set_repos (self : GitHubCommitCollector)
  (v : option (list Repository)) : GitHubCommitCollector :=
  {| g := g self;
     min_commits_2024 := min_commits_2024 self;
     min_active_weeks := min_active_weeks self;
     min_avg_words := min_avg_words self;
     exclusion_keywords := exclusion_keywords self;
     exclude_forks := exclude_forks self;
     repos := v;
     valid_repos := valid_repos self |}.

Section WithSearch.
(** The search of the hosting service.  [search_repositories token query
    sort order] is what the client built from [token] returns, and
    [slice_items r start stop] is what iterating [r[start:stop]] yields, or
    the exception that ends the iteration. *)
Context {SearchResults : Type}.
Variable search_repositories : string -> string -> string -> string -> SearchResults.
Variable slice_items : SearchResults -> Z -> Z -> result (list Repository).

Definition search_repos (self : GitHubCommitCollector) (query : string)
  (per_page max_pages : Z) : M (list Repository) :=
  for_list (seqZ 1 max_pages) (* range(1, max_pages + 1) *)
    (fun page repos =>
       result ←
         lift (slice_items (search_repositories (g self) query "stars" "desc")
                 (page * per_page - per_page) (page * per_page));
       ret (repos ++ result))
    [].

(** [run] ends without a [return]: the call evaluates to [None]. *)
Definition run (self : GitHubCommitCollector) (search_query : string)
  (per_page max_pages : Z)
  : M (option (list CommitRow) * GitHubCommitCollector) :=
  emit (Print ("Searching for repositories with query: " ++ search_query)%string);;
  found ← search_repos self search_query per_page max_pages;
  let self := set_repos self (Some found) in
  emit (Print ("Found " ++ pretty (Z.of_nat (length found))
               ++ " repositories.")%string);;
  ret (None, self).
End WithSearch.

End Collector.

(** ** [generate_results_gemini.py] *)

Module Gemini.
Import Py.

(** [response.text] is a property that raises when the service returned
    no usable candidate. *)
Record Response : Type := { text : result string }.

Definition categories : list string :=
  ["Corrective"; "Adaptive"; "Perfective"; "Preventive"; "Development"]%string.

Definition prompt (survey_result commit_message : string) : string :=
  ("You are an expert at classifying software development commits based on a survey result and the commit message."
   ++ LF
   ++ "    Classify the following commit message into one of these categories: "
   ++ join ", " categories ++ "." ++ LF
   ++ "    Provide your answer as a single word representing the category."
   ++ LF ++ LF
   ++ "    Survey Result:" ++ LF
   ++ "    " ++ survey_result ++ LF ++ LF
   ++ "    Commit Message:" ++ LF
   ++ "    " ++ commit_message ++ LF ++ LF
   ++ "    Classification:" ++ LF
   ++ "    ")%string.

Section WithModel.
(** The remote model: a state of the world, and what a call answers in
    it. *)
Context {World : Type}.
Variable generate_content : list string -> World -> result Response * World.

(** [model.generate_content([prompt])] *)
Definition call_model (prompt : string) : MS World Response :=
  fun w =>
    let '(r, w') := generate_content [prompt] w in
    ([GenerateContent prompt], w', r).

Definition classify_commit (survey_result commit_message : string)
  : MS World string :=
  let prompt := prompt survey_result commit_message in
  try_except_s
    (response ← call_model prompt;
     t ← lift_s (lift (text response));
     match t with
     | String _ _ =>
         t ← lift_s (lift (text response));
         classification ← lift_s (lift (item0 (split (strip t))));
         if bool_decide (classification ∈ categories)
         then mret classification
         else mret "Unknown"%string
     | EmptyString => mret "No response"%string
     end)
    (fun e =>
       lift_s (emit (Print ("Error during classification: "
                            ++ exn_str e)%string));;
       mret "Error"%string).

Definition classify_multiple_commits (commits_data : list string)
  (sample_survey_result : string) : MS World (gmap string string) :=
  fold_s commits_data
    (fun commit_message results =>
       classification ← classify_commit sample_survey_result commit_message;
       mret (<[commit_message := classification]> results))
    ∅.
End WithModel.

End Gemini.

(** ** [generate_results_gpt.py] *)

Module Gpt.
Import Py.

(** [response['choices'][i]['message']['content']] *)
Record ChatMessage : Type := { content : string }.
Record Choice : Type := { message : ChatMessage }.
Record Response : Type := { choices : list Choice }.

Definition SURVEY_TEXT : string :=
  (LF
   ++ "You are an expert in software maintenance. Classify commit messages into one of the following categories:"
   ++ LF ++ LF
   ++ "- Corrective" ++ LF
   ++ "- Adaptive" ++ LF
   ++ "- Perfective" ++ LF
   ++ "- Preventive" ++ LF
   ++ "- Development" ++ LF ++ LF
   ++ "Respond using only ONE word. Below is the guiding survey used internally by the team:"
   ++ LF ++ LF
   ++ "1. Does the change fix a bug or issue?" ++ LF
   ++ "2. Does it adapt the system to a new environment?" ++ LF
   ++ "3. Does it improve performance, maintainability, or SEO?" ++ LF
   ++ "4. Does it aim to prevent future issues?" ++ LF
   ++ "5. Is it part of initial development?" ++ LF ++ LF
   ++ "[... continue up to question 30 ...]" ++ LF)%string.

(** The [messages] of [classify_commit]: [(role, content)] pairs. *)
Definition messages (commit_message : string) : list (string * string) :=
  [("system", SURVEY_TEXT); ("user", "Commit: " ++ commit_message)]%string.

Section WithService.
Context {World : Type}.
(** [openai.ChatCompletion.create(model, messages, temperature)] *)
Variable create :
  string -> list (string * string) -> Z -> World -> result Response * World.

Definition call_service (model : string) (msgs : list (string * string))
  (temperature : Z) : MS World Response :=
  fun w =>
    let '(r, w') := create model msgs temperature w in
    ([ChatCompletion model msgs], w', r).

Definition classify_commit (commit_message model : string)
  : MS World string :=
  let messages := messages commit_message in
  try_except_s
    (response ← call_service model messages 0;
     choice ← lift_s (lift (item0 (choices response)));
     let classification := strip (content (message choice)) in
     mret classification)
    (fun e =>
       lift_s (emit (Print ("Error: " ++ exn_str e)%string));;
       mret "Error"%string).
End WithService.

End Gpt.

(** ** The wording of the specification, and sample data *)

Module Spec.
Import Py Collector.

(** The specification's active-week key: the pair (ISO week number, ISO
    week-year) of a timestamp. *)
Definition spec_week_key (d : datetime) : Z * Z :=
  ((isocalendar d).1.2, (isocalendar d).1.1).

(** The specification's set of active weeks. *)
Definition spec_weeks (commit_dates : list datetime) : gset (Z * Z) :=
  list_to_set (spec_week_key <$> commit_dates).

(** [commit.commit.author.date] and [commit.commit.message] *)
Definition commit_date (c : Commit) : datetime := date (author (commit c)).
Definition commit_message (c : Commit) : string := message (commit c).

(** The decision of the validator once the commit history is known. *)
Definition decide_on_history (self : GitHubCommitCollector)
  (commits : list Commit) : result bool :=
  let total_commits := Z.of_nat (length commits) in
  if total_commits <? min_commits_2024 self then inr false
  else if Z.of_nat (base.size (weeks (commit_date <$> commits)))
          <? min_active_weeks self
  then inr false
  else
    match avg_words (commit_message <$> commits) total_commits with
    | inl e => inl e
    | inr a => inr (negb (float_lt_int a (min_avg_words self)))
    end.

(** The specification's text of the keyword check: the lower-cased
    concatenation of name and description. *)
Definition spec_text (repo : Repository) : string :=
  lower (name repo ++ or_str (description repo) "")%string.

(** The validator accepted [repo]. *)
Definition accepted (self : GitHubCommitCollector) (repo : Repository) : bool :=
  match outcome (_repo_is_valid self repo) with
  | inr true => true
  | _ => false
  end.

(** The repositories [filter_repos] keeps, given the signatures seen so
    far. *)
Fixpoint kept (self : GitHubCommitCollector) (seen : gset (string * Z))
  (repos : list Repository) : list Repository :=
  match repos with
  | [] => []
  | repo :: rest =>
      if accepted self repo && bool_decide (signature repo ∉ seen)
      then repo :: kept self (seen ∪ {[signature repo]}) rest
      else kept self seen rest
  end.

(** The row of a pull request whose merge status is [m]. *)
Definition pull_row (repo : Repository) (pr : PullRequest) (m : bool) : PullRow :=
  {| repo_full_name := full_name repo;
     pr_number := number pr;
     pr_title := title pr;
     pr_body := or_str (body pr) "";
     pr_author := match user pr with Some u => login u | None => "unknown" end;
     pr_created_at := created_at pr;
     pr_state := state pr;
     merged := m |}.

(** The rows of the pull requests a paginated list yields before its
    first failure, and that failure if there is one. *)
Fixpoint rows_until_failure (repo : Repository) (l : PaginatedList PullRequest)
  : list PullRow * option exn :=
  match l with
  | PageEnd => ([], None)
  | PageError e => ([], Some e)
  | PageItem pr rest =>
      match is_merged pr with
      | inl e => ([], Some e)
      | inr m =>
          let '(rows, failure) := rows_until_failure repo rest in
          (pull_row repo pr m :: rows, failure)
      end
  end.

(** What one repository contributes to the pull-request table. *)
Definition repo_rows (repo : Repository) : list PullRow * option exn :=
  match get_pulls repo "all" "created" "desc" with
  | inl e => ([], Some e)
  | inr pulls =>
      match totalCount pulls with
      | inl e => ([], Some e)
      | inr _ => rows_until_failure repo (pulls_pages pulls)
      end
  end.

(** The line that reports the failure [e] on [repo]. *)
Definition failure_line (repo : Repository) (e : exn) : event :=
  Print ("Failed to retrieve PRs from " ++ full_name repo
         ++ ": " ++ exn_str e)%string.

(** A string of whitespace only; a string without whitespace. *)
Fixpoint all_space (s : string) : bool :=
  match s with
  | EmptyString => true
  | String c s' => isspace c && all_space s'
  end.

Fixpoint no_space (s : string) : bool :=
  match s with
  | EmptyString => true
  | String c s' => negb (isspace c) && no_space s'
  end.

(** A string that is empty or begins with a whitespace character. *)
Definition led_by_space (s : string) : Prop :=
  match s with
  | EmptyString => True
  | String c _ => isspace c = true
  end.

(** [tok] is the first whitespace-delimited token of [s]: [s] is some
    whitespace, then [tok], then nothing or something led by whitespace. *)
Definition first_token (s tok : string) : Prop :=
  exists ws rest,
    s = (ws ++ tok ++ rest)%string
    /\ all_space ws = true
    /\ tok <> EmptyString /\ no_space tok = true
    /\ led_by_space rest.
(** The items a paginated list yields before it ends or fails, and the
    failure that ends it, if any. *)
Fixpoint pages_items {A} (l : PaginatedList A) : list A :=
  match l with
  | PageEnd | PageError _ => []
  | PageItem x rest => x :: pages_items rest
  end.

Fixpoint pages_failure {A} (l : PaginatedList A) : option exn :=
  match l with
  | PageEnd => None
  | PageError e => Some e
  | PageItem _ rest => pages_failure rest
  end.

(** The row [collect_commits] builds for a commit. *)
Definition commit_row (repo : Repository) (c : Commit) : CommitRow :=
  {| c_repo_full_name := full_name repo;
     c_commit_sha := sha c;
     c_author := author_name (author (commit c));
     c_date := date (author (commit c));
     c_message := strip (message (commit c)) |}.

(** The prompts of the calls to the Gemini model recorded in a trace, in
    order. *)
Fixpoint model_calls (t : list event) : list string :=
  match t with
  | [] => []
  | GenerateContent p :: t' => p :: model_calls t'
  | _ :: t' => model_calls t'
  end.

(** The events of a trace that ask the hosting service for a commit
    history. *)
Fixpoint commit_fetches (t : list event) : list string :=
  match t with
  | [] => []
  | GetCommits n :: t' => n :: commit_fetches t'
  | _ :: t' => commit_fetches t'
  end.

(** Every string the Gemini classifier can return. *)
Definition gemini_vocabulary : list string :=
  Gemini.categories ++ ["Unknown"%string; "No response"%string; "Error"%string].

(** [l[start:stop]] on a Python list, for [0 <= start <= stop]. *)
Definition list_slice {A} (l : list A) (start stop : Z) : list A :=
  take (Z.to_nat (stop - start)) (drop (Z.to_nat start) l).

(** The ISO week number of the day [m]/[dd] of 2024 lies between 1 and
    52. *)
Definition week_of_2024_in_range (m dd : Z) : bool :=
  let w := (isocalendar (mk_datetime 2024 m dd 0 0 0)).1.2 in
  (1 <=? w) && (w <=? 52).

(** The repository is turned away by the fork check or the keyword check,
    before its commit history is asked for. *)
Definition excluded (self : GitHubCommitCollector) (repo : Repository) : bool :=
  (exclude_forks self && fork repo) || has_exclusion_keyword self repo.

End Spec.

Module Examples.
Import Py Collector.

Definition on_day (y m d : Z) : datetime := mk_datetime y m d 12 0 0.

Definition commit_on (d : datetime) (msg : string) : Commit :=
  {| sha := "0a1b2c3";
     commit := {| author := {| author_name := "dev"; date := d |};
                  message := msg |} |}.

Definition no_pulls : string -> string -> string -> result PullRequests :=
  fun _ _ _ => inr {| totalCount := inr 0; pulls_pages := PageEnd |}.

Definition repo_with (nm : string) (desc : option string) (fk : bool)
  (sz : Z) (commits : list Commit) : Repository :=
  {| full_name := ("acme/" ++ nm)%string;
     name := nm;
     description := desc;
     fork := fk;
     size := sz;
     get_commits := fun _ _ => of_list commits;
     get_pulls := no_pulls |}.

Definition collector (c w a : Z) : GitHubCommitCollector :=
  {| g := "token";
     min_commits_2024 := c;
     min_active_weeks := w;
     min_avg_words := a;
     exclusion_keywords := default_exclusion_keywords;
     exclude_forks := true;
     repos := None;
     valid_repos := None |}.

(** Two commits, on Monday 2024-01-01 and on Monday 2024-12-30. *)
Definition two_weeks_repo : Repository :=
  repo_with "tool" (Some "A tool") false 10
    [commit_on (on_day 2024 1 1) "Fix the parser";
     commit_on (on_day 2024 12 30) "Add a test"].

Definition forked_repo : Repository :=
  repo_with "tool" (Some "A tool") true 10 [].

Definition busy_repo : Repository :=
  repo_with "tool" (Some "A tool") false 10
    (repeat (commit_on (on_day 2024 3 5) "Fix the parser of the tool again")
       199).

Definition empty_repo : Repository :=
  repo_with "tool" (Some "A tool") false 10 [].

Definition tutorial_repo : Repository :=
  repo_with "Rust-Tutorials" None false 7 [].

(** The keyword [student] straddles name and description. *)
Definition straddling_repo : Repository :=
  repo_with "stu" (Some "dent") false 3 [].

Definition other_repo : Repository :=
  repo_with "lib" (Some "A library") false 20 [].

(** A search result in which [empty_repo] comes twice. *)
Definition candidates : list Repository :=
  [empty_repo; forked_repo; other_repo; empty_repo; tutorial_repo].

Definition pr (n : Z) (m : result bool) : PullRequest :=
  {| number := n;
     title := "Fix";
     body := None;
     user := None;
     created_at := on_day 2024 5 6;
     state := "closed";
     is_merged := m |}.

(** The second page of pull requests cannot be fetched. *)
Definition rate_limited_repo : Repository :=
  {| full_name := "acme/big";
     name := "big";
     description := None;
     fork := false;
     size := 99;
     get_commits := fun _ _ => PageEnd;
     get_pulls := fun _ _ _ =>
       inr {| totalCount := inr 2;
              pulls_pages :=
                PageItem (pr 2 (inr true))
                  (PageError (ServiceError "rate limit exceeded")) |} |}.

Definition small_repo : Repository :=
  {| full_name := "acme/small";
     name := "small";
     description := None;
     fork := false;
     size := 5;
     get_commits := fun _ _ => PageEnd;
     get_pulls := fun _ _ _ =>
       inr {| totalCount := inr 1;
              pulls_pages := PageItem (pr 1 (inr false)) PageEnd |} |}.

Definition config_fs : string -> result (gmap string string) :=
  fun _ => inr {[ "github_token"%string := "ghp_token"%string ]}.

(** A text-generation service that always answers [answer]. *)
Definition gemini_says (answer : string)
  : list string -> unit -> result Gemini.Response * unit :=
  fun _ w => (inr {| Gemini.text := inr answer |}, w).

Definition gemini_down : list string -> unit -> result Gemini.Response * unit :=
  fun _ w => (inl (ServiceError "503 unavailable"), w).

Definition gpt_says (answer : string)
  : string -> list (string * string) -> Z -> unit -> result Gpt.Response * unit :=
  fun _ _ _ w =>
    (inr {| Gpt.choices :=
              [ {| Gpt.message := {| Gpt.content := answer |} |} ] |}, w).

Definition gpt_down
  : string -> list (string * string) -> Z -> unit -> result Gpt.Response * unit :=
  fun _ _ _ w => (inl (ServiceError "503 unavailable"), w).
(** The request for the second page of the commit history fails. *)
Definition flaky_repo : Repository :=
  {| full_name := "acme/flaky";
     name := "flaky";
     description := Some "A tool";
     fork := false;
     size := 8;
     get_commits := fun _ _ =>
       PageItem (commit_on (on_day 2024 2 6) "Fix the build")
         (PageError (ServiceError "502 bad gateway"));
     get_pulls := no_pulls |}.

(** A collector with the default thresholds and the given keywords. *)
Definition collector_with (kws : list string) : GitHubCommitCollector :=
  {| g := "token";
     min_commits_2024 := 200;
     min_active_weeks := 5;
     min_avg_words := 5;
     exclusion_keywords := kws;
     exclude_forks := true;
     repos := None;
     valid_repos := None |}.

(** A collector that has filtered: [valid_repos] holds [rs]. *)
Definition filtered_collector (rs : list Repository) : GitHubCommitCollector :=
  set_valid_repos (collector 0 0 0) (Some rs).

(** A search service with a fixed ranking, sliced as a Python list. *)
Definition ranking : list Repository :=
  [empty_repo; forked_repo; other_repo; tutorial_repo; two_weeks_repo].

Definition sample_search : string -> string -> string -> string -> list Repository :=
  fun _ _ _ _ => ranking.

Definition sample_slice (r : list Repository) (start stop : Z)
  : result (list Repository) :=
  inr (Spec.list_slice r start stop).

(** A search service whose second page of results cannot be read. *)
Definition failing_slice (r : list Repository) (start stop : Z)
  : result (list Repository) :=
  if start =? 0 then inr (Spec.list_slice r start stop)
  else inl (ServiceError "403 rate limit exceeded").

Definition no_token_fs : string -> result (gmap string string) :=
  fun _ => inr {[ "openai_token"%string := "sk-token"%string ]}.

Definition missing_file_fs : string -> result (gmap string string) :=
  fun _ => inl (ServiceError "No such file or directory: 'config.json'").

(** A model whose response has no readable text. *)
Definition gemini_blocked : list string -> unit -> result Gemini.Response * unit :=
  fun _ w =>
    (inr {| Gemini.text := inl (ValueError "response has no valid part") |}, w).

(** A chat service that answers without any choice. *)
Definition gpt_no_choice
  : string -> list (string * string) -> Z -> unit -> result Gpt.Response * unit :=
  fun _ _ _ w => (inr {| Gpt.choices := [] |}, w).

(** A model that answers the [n]-th call with [Corrective] when [n] is
    even and with [Adaptive] when it is odd; the world counts the calls. *)
Definition gemini_alternating
  : list string -> nat -> result Gemini.Response * nat :=
  fun _ n =>
    (inr {| Gemini.text :=
              inr (if Nat.even n then "Corrective" else "Adaptive")%string |},
     S n).

(** Two commits in different weeks, each with a message of three words. *)
Definition wordy_repo : Repository :=
  repo_with "parser" (Some "A parser") false 12
    [commit_on (on_day 2024 3 5) "Fix the parser";
     commit_on (on_day 2024 6 11) "Add more tests"].

End Examples.

(** ** Properties *)

(** *** The runtime *)

Section Runtime.
Import Py.

Lemma bind_ret_l {A B} (a : A) (k : A -> M B) : bind (ret a) k = k a.
Proof. unfold bind, ret. destruct (k a) as [t r]. reflexivity. Qed.

Lemma startswith_spec (s p : string) :
  startswith s p = true <-> exists b, s = (p ++ b)%string.
Proof.
  revert s. induction p as [|a p IH]; intros s; simpl.
  - split; [intros _; exists s; reflexivity | intros _; reflexivity].
  - destruct s as [|c s].
    + split; [discriminate | intros [b Hb]; discriminate].
    + destruct (Ascii.eqb_spec a c) as [->|Hne].
      * rewrite IH. split; intros [b Hb]; exists b.
        -- simpl. now rewrite Hb.
        -- now inversion Hb.
      * split; [discriminate | intros [b Hb]; inversion Hb; congruence].
Qed.

(** [contains] decides the substring relation. *)
Lemma contains_spec (sub s : string) :
  contains sub s = true <-> exists a b, s = (a ++ sub ++ b)%string.
Proof.
  induction s as [|c s IH].
  - simpl. rewrite orb_false_r, startswith_spec. split.
    + intros [b Hb]. exists EmptyString, b. exact Hb.
    + intros [a [b Hab]]. destruct a; [exists b; exact Hab | discriminate].
  - simpl. rewrite orb_true_iff, startswith_spec, IH. split.
    + intros [[b Hb] | [a [b Hab]]].
      * exists EmptyString, b. exact Hb.
      * exists (String c a), b. simpl. now rewrite Hab.
    + intros [a [b Hab]]. destruct a as [|c' a].
      * left. exists b. exact Hab.
      * right. exists a, b. now inversion Hab.
Qed.

(** [int / int] raises [ZeroDivisionError] only on a zero divisor. *)
Lemma truediv_nonzero (a b : Z) (msg : string) :
  b <> 0 -> truediv a b <> inl (ZeroDivisionError msg).
Proof.
  intros Hb. unfold truediv.
  destruct (Z.eqb_spec b 0) as [?|_]; [contradiction|].
  destruct (SFdiv 53 1024 (float_of_int a) (float_of_int b)); discriminate.
Qed.

Lemma truediv_zero_dividend (b : Z) :
  0 < b -> truediv 0 b = inr (S754_zero false).
Proof.
  intros Hb. unfold truediv.
  destruct (Z.eqb_spec b 0) as [?|_]; [lia|].
  destruct b; try lia. reflexivity.
Qed.

End Runtime.

(** *** The validator *)

Section Validator.
Import Py Collector Spec.

(** The loop over a commit history that is fetched without failure
    appends every date and every message, in order. *)
Lemma fetch_loop_of_list (commits : list Commit) (ds : list datetime)
  (ms : list string) :
  for_paginated (of_list commits)
    (fun commit '(commit_dates, messages) =>
       ret (commit_dates ++ [date (author (Collector.commit commit))],
            messages ++ [message (Collector.commit commit)]))
    (ds, ms)
  = ([], inr (ds ++ (commit_date <$> commits),
              ms ++ (commit_message <$> commits))).
Proof.
  revert ds ms.
  induction commits as [|c commits IH]; intros ds ms;
    cbn [for_paginated of_list fmap list_fmap].
  - now rewrite !app_nil_r.
  - rewrite bind_ret_l, IH. rewrite <- !app_assoc. reflexivity.
Qed.

Lemma repo_is_valid_fetched (self : GitHubCommitCollector) (repo : Repository)
  (commits : list Commit) :
  exclude_forks self && fork repo = false ->
  has_exclusion_keyword self repo = false ->
  get_commits repo since until = of_list commits ->
  _repo_is_valid self repo
  = ([GetCommits (full_name repo);
      Progress ("Analyzing commits in " ++ full_name repo)%string],
     decide_on_history self commits).
Proof.
  intros Hfork Hkw Hfetch. unfold _repo_is_valid, decide_on_history.
  rewrite Hfork, Hkw, Hfetch. unfold mbind, M_bind, mret, M_ret.
  rewrite fetch_loop_of_list. unfold bind, emit, ret, lift.
  cbn [app]. rewrite length_fmap.
  destruct (_ <? min_commits_2024 self); [reflexivity|].
  destruct (_ <? min_active_weeks self); [reflexivity|].
  destruct (avg_words _ _) as [e|a]; [reflexivity|].
  destruct (float_lt_int a _); reflexivity.
Qed.

Lemma repo_is_valid_fork (self : GitHubCommitCollector) (repo : Repository) :
  exclude_forks self && fork repo = true ->
  _repo_is_valid self repo
  = ([Print ("Excluding forked repo: " ++ full_name repo)%string], inr false).
Proof. intros H. unfold _repo_is_valid. rewrite H. reflexivity. Qed.

Lemma repo_is_valid_keyword (self : GitHubCommitCollector) (repo : Repository) :
  exclude_forks self && fork repo = false ->
  has_exclusion_keyword self repo = true ->
  _repo_is_valid self repo
  = ([Print ("Excluding repo with keywords: " ++ full_name repo)%string],
     inr false).
Proof. intros H1 H2. unfold _repo_is_valid. rewrite H1, H2. reflexivity. Qed.

End Validator.

Section ValidatorClaims.
Import Py Collector Spec Examples.

(** C8: when [exclude_forks] is set and the repository is a fork, the
    validator rejects it whatever its commit history is: the only event
    is the line that reports the exclusion, so the commit history is
    never requested and no commit count, active-week or word-count check
    is reached. *)
Theorem forks_rejected_regardless_of_commits
  (self : GitHubCommitCollector) (repo : Repository) :
  exclude_forks self = true ->
  fork repo = true ->
  outcome (_repo_is_valid self repo) = inr false
  /\ trace (_repo_is_valid self repo)
     = [Print ("Excluding forked repo: " ++ full_name repo)%string]
  /\ forall n, GetCommits n ∉ trace (_repo_is_valid self repo).
Proof.
  intros Hex Hfork.
  rewrite repo_is_valid_fork by (rewrite Hex, Hfork; reflexivity).
  repeat split. intros n Hin. apply list_elem_of_singleton in Hin. discriminate.
Qed.

Lemma forks_rejected_witness :
  exclude_forks (collector 200 5 5) = true
  /\ fork forked_repo = true
  /\ outcome (_repo_is_valid (collector 200 5 5) forked_repo) = inr false.
Proof.
  split; [reflexivity|]. split; [reflexivity|].
  apply (forks_rejected_regardless_of_commits (collector 200 5 5) forked_repo);
    reflexivity.
Defined.

(** C9: with the criteria [min_commits_2024 = 200], [min_active_weeks = 5]
    and [min_avg_words = 5], a repository that is not a fork, has no
    exclusion keyword and has exactly 199 commits in the observation
    window is rejected, whatever the dates and the messages of these
    commits are. *)
Theorem below_commit_threshold_rejected
  (self : GitHubCommitCollector) (repo : Repository) (commits : list Commit) :
  min_commits_2024 self = 200 ->
  min_active_weeks self = 5 ->
  min_avg_words self = 5 ->
  fork repo = false ->
  has_exclusion_keyword self repo = false ->
  get_commits repo since until = of_list commits ->
  length commits = 199%nat ->
  outcome (_repo_is_valid self repo) = inr false.
Proof.
  intros Hmin _ _ Hfork Hkw Hfetch Hlen.
  rewrite (repo_is_valid_fetched self repo commits); auto.
  - unfold outcome, decide_on_history; simpl. rewrite Hlen, Hmin. reflexivity.
  - rewrite Hfork. apply andb_false_r.
Qed.

Lemma below_commit_threshold_witness :
  length (repeat (commit_on (on_day 2024 3 5)
                    "Fix the parser of the tool again") 199) = 199%nat
  /\ outcome (_repo_is_valid (collector 200 5 5) busy_repo) = inr false.
Proof.
  split; [apply repeat_length|].
  apply (below_commit_threshold_rejected (collector 200 5 5) busy_repo
           (repeat (commit_on (on_day 2024 3 5)
                      "Fix the parser of the tool again") 199));
    reflexivity.
Defined.

(** C6, as the code has it: the text that is searched is the lower-cased
    name, one space, and the description (the empty string when there is
    none).  A repository whose text contains the lower-cased form of one
    of the exclusion keywords is rejected, and its commit history is not
    requested. *)
Theorem keyword_rejected_before_fetch
  (self : GitHubCommitCollector) (repo : Repository) (kw : string) :
  kw ∈ exclusion_keywords self ->
  (exists a b,
      lower (name repo ++ " " ++ or_str (description repo) "")
      = (a ++ lower kw ++ b)%string) ->
  outcome (_repo_is_valid self repo) = inr false
  /\ forall n, GetCommits n ∉ trace (_repo_is_valid self repo).
Proof.
  intros Hkw Hsub.
  destruct (exclude_forks self && fork repo) eqn:Hfork.
  - rewrite repo_is_valid_fork by assumption. split; [reflexivity|].
    intros n Hin. apply list_elem_of_singleton in Hin. discriminate.
  - rewrite repo_is_valid_keyword; [| assumption |].
    + split; [reflexivity|].
      intros n Hin. apply list_elem_of_singleton in Hin. discriminate.
    + unfold has_exclusion_keyword. apply existsb_exists.
      exists kw. split; [now apply list_elem_of_In|].
      apply contains_spec. exact Hsub.
Qed.

Lemma keyword_rejected_witness :
  lower (name tutorial_repo ++ " " ++ or_str (description tutorial_repo) "")
  = ("rust-" ++ lower "tutorial" ++ "s ")%string
  /\ outcome (_repo_is_valid (collector 0 0 0) tutorial_repo) = inr false
  /\ GetCommits (full_name tutorial_repo)
     ∉ trace (_repo_is_valid (collector 0 0 0) tutorial_repo).
Proof.
  split; [reflexivity|].
  destruct (keyword_rejected_before_fetch (collector 0 0 0) tutorial_repo
              "tutorial") as [Hout Hfetch].
  - unfold collector, default_exclusion_keywords; simpl.
    apply list_elem_of_In; simpl; auto.
  - exists "rust-"%string, "s "%string. reflexivity.
  - split; [exact Hout | apply Hfetch].
Defined.

(** C6 as stated fails: [student] occurs in the lower-cased concatenation
    of the name [stu] and the description [dent], yet the validator
    requests the commit history and accepts the repository. *)
Lemma keyword_across_name_and_description :
  (exists kw, kw ∈ exclusion_keywords (collector 0 0 0)
              /\ contains (lower kw) (spec_text straddling_repo) = true)
  /\ GetCommits "acme/stu" ∈ trace (_repo_is_valid (collector 0 0 0) straddling_repo)
  /\ outcome (_repo_is_valid (collector 0 0 0) straddling_repo) = inr true.
Proof.
  split; [|split].
  - exists "student"%string. split; [|reflexivity].
    apply list_elem_of_In; simpl; auto.
  - vm_compute. apply list_elem_of_here.
  - vm_compute. reflexivity.
Qed.

End ValidatorClaims.

Section ActivityClaims.
Import Py Collector Spec Examples.

(** C1, the code on the dates of the claim: the key of a commit pairs its
    ISO week number with its calendar year, not with its ISO week-year.
    Tuesday 2024-12-31 lies in ISO week 1 of week-year 2025 but gets the
    key (1, 2024); Wednesday 2025-01-01, in the same ISO week, gets another
    key; and Monday 2024-01-01 and Monday 2024-12-30, fifty-two weeks
    apart, get the same key.  A repository with commits on these two
    Mondays has two active weeks by the specification's pairs and one by
    the code's, and the validator rejects it when two are required. *)
Theorem active_weeks_use_calendar_year :
  forallb valid_datetime
    [on_day 2024 1 1; on_day 2024 12 30; on_day 2024 12 31; on_day 2025 1 1]
  = true
  /\ spec_week_key (on_day 2024 12 31) = (1, 2025)
  /\ week_key (on_day 2024 12 31) = (1, 2024)
  /\ spec_week_key (on_day 2025 1 1) = spec_week_key (on_day 2024 12 31)
  /\ week_key (on_day 2025 1 1) <> week_key (on_day 2024 12 31)
  /\ spec_week_key (on_day 2024 1 1) <> spec_week_key (on_day 2024 12 30)
  /\ week_key (on_day 2024 1 1) = week_key (on_day 2024 12 30)
  /\ base.size (spec_weeks [on_day 2024 1 1; on_day 2024 12 30]) = 2%nat
  /\ base.size (weeks [on_day 2024 1 1; on_day 2024 12 30]) = 1%nat
  /\ outcome (_repo_is_valid (collector 2 2 0) two_weeks_repo) = inr false
  /\ outcome (_repo_is_valid (collector 2 1 0) two_weeks_repo) = inr true.
Proof.
  repeat split; try (vm_compute; reflexivity); vm_compute; discriminate.
Qed.

(** C4: the average word count never divides by zero.  The divisor is the
    maximum of the commit count and 1: the average is the word total
    divided by the number of commits when there are commits, and divided by
    1 when there are none, which gives 0.  So neither the average nor the
    validator raises [ZeroDivisionError]; a repository whose average is
    below [min_avg_words] is rejected, and one that reaches the last check
    is decided by comparing that quotient with [min_avg_words]. *)
Theorem avg_words_divisor_floored
  (self : GitHubCommitCollector) (repo : Repository) (commits : list Commit) :
  get_commits repo since until = of_list commits ->
  let messages := commit_message <$> commits in
  let total_commits := Z.of_nat (length commits) in
  avg_words messages total_commits
  = truediv (sum (count_words <$> messages)) (Z.max total_commits 1)
  /\ (commits <> [] ->
      avg_words messages total_commits
      = truediv (sum (count_words <$> messages)) total_commits)
  /\ (commits = [] ->
      avg_words messages total_commits = truediv 0 1
      /\ avg_words messages total_commits = inr (S754_zero false))
  /\ 1 <= Z.max total_commits 1
  /\ (forall msg, avg_words messages total_commits <> inl (ZeroDivisionError msg))
  /\ (forall msg,
        outcome (_repo_is_valid self repo) <> inl (ZeroDivisionError msg))
  /\ (forall a,
        avg_words messages total_commits = inr a ->
        float_lt_int a (min_avg_words self) = true ->
        outcome (_repo_is_valid self repo) = inr false)
  /\ (exclude_forks self && fork repo = false ->
      has_exclusion_keyword self repo = false ->
      min_commits_2024 self <= total_commits ->
      min_active_weeks self
      <= Z.of_nat (base.size (weeks (commit_date <$> commits))) ->
      outcome (_repo_is_valid self repo)
      = match
          truediv (sum (count_words <$> messages)) (Z.max total_commits 1)
        with
        | inl e => inl e
        | inr a => inr (negb (float_lt_int a (min_avg_words self)))
        end).
Proof.
  intros Hfetch messages total_commits.
  assert (Hdiv : forall msg,
             avg_words messages total_commits <> inl (ZeroDivisionError msg)).
  { intros msg. unfold avg_words. apply truediv_nonzero. lia. }
  assert (Hcases :
            outcome (_repo_is_valid self repo) = inr false
            \/ outcome (_repo_is_valid self repo)
               = match avg_words messages total_commits with
                 | inl e => inl e
                 | inr a => inr (negb (float_lt_int a (min_avg_words self)))
                 end).
  { destruct (exclude_forks self && fork repo) eqn:Hfork.
    { left. now rewrite repo_is_valid_fork. }
    destruct (has_exclusion_keyword self repo) eqn:Hkw.
    { left. now rewrite repo_is_valid_keyword. }
    rewrite (repo_is_valid_fetched self repo commits) by assumption.
    unfold outcome, decide_on_history; simpl.
    destruct (_ <? min_commits_2024 self); [now left|].
    destruct (_ <? min_active_weeks self); [now left|].
    right. reflexivity. }
  split; [reflexivity|]. split; [|split; [|split; [|split; [|split; [|split]]]]].
  - intros Hne. unfold avg_words. f_equal.
    assert (1 <= total_commits); [|lia].
    unfold total_commits. destruct commits; [congruence|]. cbn [length]. lia.
  - intros ->. split; reflexivity.
  - lia.
  - exact Hdiv.
  - intros msg. destruct Hcases as [-> | ->]; [discriminate|].
    specialize (Hdiv msg).
    destruct (avg_words messages total_commits); congruence.
  - intros a Ha Hlt. destruct Hcases as [H | ->]; [exact H|].
    rewrite Ha, Hlt. reflexivity.
  - intros Hfork Hkw Hc Hw.
    rewrite (repo_is_valid_fetched self repo commits) by assumption.
    unfold outcome, decide_on_history. cbn [snd].
    fold total_commits. fold messages.
    destruct (Z.ltb_spec total_commits (min_commits_2024 self)); [lia|].
    destruct (Z.ltb_spec
                (Z.of_nat (base.size (weeks (commit_date <$> commits))))
                (min_active_weeks self)); [lia|].
    reflexivity.
Qed.

(** Two commits of three words each average 3.0: the repository passes
    with [min_avg_words = 3] and is rejected with [min_avg_words = 4]; the
    empty history averages 0. *)
Lemma avg_words_divisor_floored_witness :
  get_commits wordy_repo since until
  = of_list [commit_on (on_day 2024 3 5) "Fix the parser";
             commit_on (on_day 2024 6 11) "Add more tests"]
  /\ avg_words ["Fix the parser"; "Add more tests"]%string 2
     = inr (S754_finite false 6755399441055744 (-51))
  /\ outcome (_repo_is_valid (collector 2 2 3) wordy_repo) = inr true
  /\ outcome (_repo_is_valid (collector 2 2 4) wordy_repo) = inr false
  /\ outcome (_repo_is_valid (collector 2 2 4) wordy_repo)
     <> inl (ZeroDivisionError "division by zero")
  /\ avg_words [] 0 = inr (S754_zero false).
Proof.
  destruct (avg_words_divisor_floored (collector 2 2 3) wordy_repo
              [commit_on (on_day 2024 3 5) "Fix the parser";
               commit_on (on_day 2024 6 11) "Add more tests"] eq_refl)
    as (Havg & Hcount & _ & _ & _ & _ & _ & Hlast).
  destruct (avg_words_divisor_floored (collector 2 2 4) wordy_repo
              [commit_on (on_day 2024 3 5) "Fix the parser";
               commit_on (on_day 2024 6 11) "Add more tests"] eq_refl)
    as (_ & _ & _ & _ & _ & Hsafe & Hreject & _).
  destruct (avg_words_divisor_floored (collector 0 0 1) empty_repo [] eq_refl)
    as (_ & _ & Hempty & _).
  split; [reflexivity|]. split; [|split; [|split; [|split]]].
  - refine (eq_trans (Hcount _) _); [discriminate | reflexivity].
  - refine (eq_trans (Hlast eq_refl eq_refl _ _) _);
      [vm_compute; discriminate | vm_compute; discriminate | reflexivity].
  - apply (Hreject (S754_finite false 6755399441055744 (-51)));
      [refine (eq_trans (Hcount _) _); [discriminate | reflexivity]
      | reflexivity].
  - apply Hsafe.
  - exact (proj2 (Hempty eq_refl)).
Defined.

(** On an empty history that reaches the last check, the average is 0:
    the repository is accepted exactly when [min_avg_words] is not
    positive. *)
Lemma empty_history_average (self : GitHubCommitCollector) (repo : Repository) :
  exclude_forks self && fork repo = false ->
  has_exclusion_keyword self repo = false ->
  get_commits repo since until = PageEnd ->
  min_commits_2024 self <= 0 ->
  min_active_weeks self <= 0 ->
  outcome (_repo_is_valid self repo) = inr (negb (0 <? min_avg_words self)).
Proof.
  intros Hfork Hkw Hfetch Hc Hw.
  rewrite (repo_is_valid_fetched self repo []) by assumption.
  unfold outcome, decide_on_history. cbn [snd length fmap list_fmap].
  assert (Hs : base.size (weeks []) = 0%nat) by reflexivity.
  assert (H1 : (Z.of_nat 0 <? min_commits_2024 self) = false)
    by (apply Z.ltb_ge; simpl; lia).
  assert (H2 : (Z.of_nat 0 <? min_active_weeks self) = false)
    by (apply Z.ltb_ge; simpl; lia).
  rewrite Hs, H1, H2. reflexivity.
Qed.

(** C10: an empty list of exclusion keywords is replaced by the default
    keywords, exactly as no list is.  The two constructions give the same
    result whatever the configuration is; when the configuration holds a
    token, both succeed with a collector whose keywords are [student],
    [exercise] and [tutorial]; and keyword filtering is still in force on
    that collector: a repository whose text contains one of the three words
    is rejected without any request for its commits. *)
Theorem empty_keywords_mean_default
  (fs : string -> result (gmap string string)) (config_path : string)
  (min_commits min_weeks min_words : Z) (exclude_forks : bool) :
  __init__ fs config_path min_commits min_weeks min_words (Some []) exclude_forks
  = __init__ fs config_path min_commits min_weeks min_words None exclude_forks
  /\ (forall config c t,
         fs config_path = inr config ->
         config !! "github_token"%string = Some (String c t) ->
         exists self,
           outcome (__init__ fs config_path min_commits min_weeks min_words
                      (Some []) exclude_forks) = inr self
           /\ outcome (__init__ fs config_path min_commits min_weeks min_words
                         None exclude_forks) = inr self
           /\ exclusion_keywords self
              = ["student"; "exercise"; "tutorial"]%string
           /\ (forall repo kw,
                  kw ∈ ["student"; "exercise"; "tutorial"]%string ->
                  contains kw (text repo) = true ->
                  outcome (_repo_is_valid self repo) = inr false
                  /\ forall n, GetCommits n ∉ trace (_repo_is_valid self repo))).
Proof.
  split; [reflexivity|].
  intros config c t Hfs Htoken.
  unfold __init__, outcome, mbind, M_bind, bind, lift, ret, raise.
  rewrite Hfs, Htoken. cbn [snd or_list].
  eexists. split; [reflexivity|]. split; [reflexivity|].
  split; [reflexivity|].
  intros repo kw Hin Hcontains.
  match goal with
  | |- context [_repo_is_valid ?c repo] => set (self := c)
  end.
  assert (Hhas : has_exclusion_keyword self repo = true).
  { unfold has_exclusion_keyword. apply existsb_exists.
    exists kw. split.
    - apply list_elem_of_In. exact Hin.
    - replace (lower kw) with kw; [exact Hcontains|].
      apply list_elem_of_In in Hin. cbn in Hin.
      destruct Hin as [<-|[<-|[<-|[]]]]; reflexivity. }
  destruct (Collector.exclude_forks self && fork repo) eqn:Hfork.
  - rewrite repo_is_valid_fork by assumption. split; [reflexivity|].
    intros n Hn. apply list_elem_of_singleton in Hn. discriminate.
  - rewrite repo_is_valid_keyword by assumption. split; [reflexivity|].
    intros n Hn. apply list_elem_of_singleton in Hn. discriminate.
Qed.

(** With the sample configuration, the collector built with the empty list
    is the one built with no list, holds the three default keywords, and
    rejects the tutorial repository before any fetch. *)
Lemma empty_keywords_mean_default_witness :
  config_fs "config.json" = inr {[ "github_token"%string := "ghp_token"%string ]}
  /\ outcome (__init__ config_fs "config.json" 0 0 0 (Some []) true)
     = inr (mk_collector "ghp_token" 0 0 0
              ["student"; "exercise"; "tutorial"]%string true None None)
  /\ outcome (__init__ config_fs "config.json" 0 0 0 None true)
     = inr (mk_collector "ghp_token" 0 0 0
              ["student"; "exercise"; "tutorial"]%string true None None)
  /\ outcome (_repo_is_valid
                (mk_collector "ghp_token" 0 0 0
                   ["student"; "exercise"; "tutorial"]%string true None None)
                tutorial_repo) = inr false.
Proof.
  destruct (empty_keywords_mean_default config_fs "config.json" 0 0 0 true)
    as [_ Hdefault].
  destruct (Hdefault {[ "github_token"%string := "ghp_token"%string ]}
              "g"%char "hp_token"%string eq_refl eq_refl)
    as (self & Hempty & Hnone & Hkws & Hreject).
  assert (Hself : self
                  = mk_collector "ghp_token" 0 0 0
                      ["student"; "exercise"; "tutorial"]%string true None None).
  { assert (H : @inr exn _ self
                = inr (mk_collector "ghp_token" 0 0 0
                         ["student"; "exercise"; "tutorial"]%string true None None))
      by (rewrite <- Hempty; reflexivity).
    now injection H. }
  subst self.
  split; [reflexivity|]. split; [exact Hempty|]. split; [exact Hnone|].
  apply (Hreject tutorial_repo "tutorial"%string).
  - do 2 apply list_elem_of_further. apply list_elem_of_here.
  - reflexivity.
Defined.

(** With a configuration that holds a token the construction succeeds,
    and the empty list gives the three default keywords. *)
Lemma empty_keywords_example :
  match outcome (__init__ config_fs "config.json" 200 5 5 (Some []) true) with
  | inr self =>
      exclusion_keywords self = ["student"; "exercise"; "tutorial"]%string
  | inl _ => False
  end.
Proof. vm_compute. reflexivity. Qed.

End ActivityClaims.

(** *** The filter *)

Section Filter.
Import Py Collector Spec.

Variable self : GitHubCommitCollector.

Lemma accepted_true (repo : Repository) :
  accepted self repo = true <-> outcome (_repo_is_valid self repo) = inr true.
Proof.
  unfold accepted.
  destruct (outcome (_repo_is_valid self repo)) as [e|[|]];
    split; congruence.
Qed.

Lemma kept_sublist (seen : gset (string * Z)) (repos : list Repository) :
  kept self seen repos `sublist_of` repos.
Proof.
  revert seen. induction repos as [|r repos IH]; intros seen; simpl.
  - constructor.
  - destruct (accepted self r && bool_decide (signature r ∉ seen)).
    + apply sublist_skip, IH.
    + apply sublist_cons, IH.
Qed.

Lemma kept_accepted (seen : gset (string * Z)) (repos : list Repository) :
  Forall (fun r => accepted self r = true) (kept self seen repos).
Proof.
  revert seen. induction repos as [|r repos IH]; intros seen; simpl.
  - constructor.
  - destruct (accepted self r) eqn:Hacc; simpl; [|apply IH].
    case_bool_decide; [|apply IH]. constructor; [exact Hacc | apply IH].
Qed.

(** Nothing that is kept has a signature that was seen before. *)
Lemma kept_not_seen (seen : gset (string * Z)) (repos : list Repository)
  (r : Repository) :
  r ∈ kept self seen repos -> signature r ∉ seen.
Proof.
  revert seen. induction repos as [|r0 repos IH]; intros seen; simpl.
  - intros H. inversion H.
  - destruct (accepted self r0); simpl; [|apply IH].
    case_bool_decide as Hnew; [|apply IH].
    intros [->|Hin]%elem_of_cons; [exact Hnew|].
    apply IH in Hin. set_solver.
Qed.

Lemma kept_NoDup (seen : gset (string * Z)) (repos : list Repository) :
  NoDup (signature <$> kept self seen repos).
Proof.
  revert seen. induction repos as [|r repos IH]; intros seen; simpl.
  - constructor.
  - destruct (accepted self r); simpl; [|apply IH].
    case_bool_decide; [|apply IH].
    rewrite fmap_cons. constructor; [|apply IH].
    intros (r' & Heq & Hin)%list_elem_of_fmap.
    apply kept_not_seen in Hin. rewrite <- Heq in Hin. set_solver.
Qed.

(** An accepted repository is lost only to an earlier one with its
    signature. *)
Lemma kept_complete (seen : gset (string * Z)) (repos : list Repository)
  (r : Repository) :
  r ∈ repos -> accepted self r = true ->
  signature r ∈ seen \/ signature r ∈ signature <$> kept self seen repos.
Proof.
  revert seen. induction repos as [|r0 repos IH]; intros seen Hin Hacc.
  - inversion Hin.
  - simpl. apply elem_of_cons in Hin as [->|Hin].
    + rewrite Hacc; simpl. case_bool_decide as Hnew.
      * right. rewrite fmap_cons. apply list_elem_of_here.
      * left. destruct (decide (signature r0 ∈ seen)); tauto.
    + destruct (accepted self r0 && bool_decide (signature r0 ∉ seen)).
      * destruct (IH (seen ∪ {[signature r0]}) Hin Hacc) as [Hs|Hk].
        -- apply elem_of_union in Hs as [Hs|Hs]; [now left|].
           right. apply elem_of_singleton in Hs. rewrite Hs, fmap_cons.
           apply list_elem_of_here.
        -- right. rewrite fmap_cons. now apply list_elem_of_further.
      * apply IH; assumption.
Qed.

Lemma kept_app (seen : gset (string * Z)) (pre post : list Repository) :
  kept self seen (pre ++ post)
  = kept self seen pre
    ++ kept self (seen ∪ list_to_set (signature <$> kept self seen pre)) post.
Proof.
  revert seen. induction pre as [|r pre IH]; intros seen.
  - cbn [kept app]. rewrite fmap_nil, list_to_set_nil.
    now rewrite (right_id_L ∅ (∪)).
  - cbn [kept app].
    destruct (accepted self r && bool_decide (signature r ∉ seen)).
    + rewrite fmap_cons, list_to_set_cons, IH. cbn [app].
      rewrite (assoc_L (∪) seen). reflexivity.
    + apply IH.
Qed.

(** The first accepted repository with a given signature is kept, between
    what is kept of the repositories before it and of those after it. *)
Lemma kept_first (pre post : list Repository) (r : Repository) :
  accepted self r = true ->
  (forall r', r' ∈ pre -> accepted self r' = true ->
              signature r' <> signature r) ->
  exists v1 v2,
    kept self ∅ (pre ++ r :: post) = v1 ++ r :: v2
    /\ v1 `sublist_of` pre /\ v2 `sublist_of` post.
Proof.
  intros Hacc Hfirst. rewrite kept_app. simpl. rewrite Hacc. simpl.
  rewrite bool_decide_eq_true_2.
  - eexists _, _. split; [reflexivity|]. split; apply kept_sublist.
  - intros [Hin|Hin]%elem_of_union; [set_solver|].
    apply elem_of_list_to_set, list_elem_of_fmap in Hin as (r' & Heq & Hin).
    apply (Hfirst r'); [| |now symmetry].
    + eapply elem_of_sublist; [exact Hin | apply kept_sublist].
    + pose proof (kept_accepted ∅ pre) as Hall.
      rewrite Forall_forall in Hall. now apply Hall.
Qed.

(** One turn of the loop, when the validation does not raise. *)
Lemma filter_step_run (r : Repository) (valid : list Repository)
  (seen : gset (string * Z)) (t0 : list event) (b : bool) :
  _repo_is_valid self r = (t0, inr b) ->
  filter_step self r (valid, seen)
  = (t0,
     inr (if b && bool_decide (signature r ∉ seen)
          then (valid ++ [r], seen ∪ {[signature r]})
          else (valid, seen))).
Proof.
  intros Hrun. unfold filter_step, mbind, M_bind, mret, M_ret.
  rewrite Hrun. unfold bind, ret.
  destruct b; cbn [negb andb]; [|now rewrite app_nil_r].
  destruct (decide (signature r ∈ seen)) as [Hin|Hnin].
  - rewrite bool_decide_eq_true_2, bool_decide_eq_false_2 by tauto.
    now rewrite app_nil_r.
  - rewrite bool_decide_eq_false_2, bool_decide_eq_true_2 by tauto.
    now rewrite app_nil_r.
Qed.

(** The loop of [filter_repos], when no validation raises: [valid] grows
    by the kept repositories. *)
Lemma filter_loop (repos : list Repository) (valid : list Repository)
  (seen : gset (string * Z)) :
  Forall (fun r => exists b, outcome (_repo_is_valid self r) = inr b) repos ->
  exists t seen',
    for_list repos (filter_step self) (valid, seen)
    = (t, inr (valid ++ kept self seen repos, seen')).
Proof.
  intros Hall. revert valid seen.
  induction Hall as [|r repos [b Hb] _ IH]; intros valid seen.
  - exists [], seen. simpl. now rewrite app_nil_r.
  - cbn [for_list kept].
    destruct (_repo_is_valid self r) as [t0 o] eqn:Hrun.
    unfold outcome in Hb. simpl in Hb. subst o.
    rewrite (filter_step_run r valid seen t0 b Hrun).
    assert (Hacc : accepted self r = b).
    { unfold accepted, outcome. rewrite Hrun. now destruct b. }
    rewrite Hacc. unfold bind.
    destruct (b && bool_decide (signature r ∉ seen)).
    + destruct (IH (valid ++ [r]) (seen ∪ {[signature r]}))
        as (t & seen' & ->).
      exists (t0 ++ t), seen'. rewrite <- app_assoc. reflexivity.
    + destruct (IH valid seen) as (t & seen' & ->).
      exists (t0 ++ t), seen'. reflexivity.
Qed.

End Filter.

Section FilterClaims.
Import Py Collector Spec Examples.

(** C3, the code against the claim: [filter_repos] returns [None], not the
    list; the list is left in [valid_repos].  When no validation raises,
    that list is a sub-sequence of the input in input order, holds only
    repositories the validator accepted, holds no signature twice, holds
    the signature of every accepted repository, and for each signature
    holds the first accepted repository that bears it. *)
Theorem filter_repos_returns_none_and_stores_first
  (self : GitHubCommitCollector) (repos : list Repository) :
  Forall (fun r => exists b, outcome (_repo_is_valid self r) = inr b) repos ->
  exists valid,
    outcome (filter_repos self repos)
    = inr (None, set_valid_repos self (Some valid))
    /\ valid `sublist_of` repos
    /\ Forall (fun r => outcome (_repo_is_valid self r) = inr true) valid
    /\ NoDup (signature <$> valid)
    /\ (forall r, r ∈ repos ->
                  outcome (_repo_is_valid self r) = inr true ->
                  signature r ∈ signature <$> valid)
    /\ (forall pre r post,
           repos = pre ++ r :: post ->
           outcome (_repo_is_valid self r) = inr true ->
           (forall r', r' ∈ pre ->
                       outcome (_repo_is_valid self r') = inr true ->
                       signature r' <> signature r) ->
           exists v1 v2,
             valid = v1 ++ r :: v2
             /\ v1 `sublist_of` pre /\ v2 `sublist_of` post).
Proof.
  intros Hall. exists (kept self ∅ repos). split; [|split; [|split; [|split; [|split]]]].
  - unfold filter_repos, mbind, M_bind, mret, M_ret.
    destruct (filter_loop self repos [] ∅ Hall) as (t & seen' & Hloop).
    unfold outcome, bind, emit. rewrite Hloop. reflexivity.
  - apply kept_sublist.
  - eapply Forall_impl; [apply kept_accepted|].
    intros r Hr. now apply accepted_true.
  - apply kept_NoDup.
  - intros r Hin Hacc. apply accepted_true in Hacc.
    destruct (kept_complete self ∅ repos r Hin Hacc) as [Hs|Hk];
      [set_solver | exact Hk].
  - intros pre r post -> Hacc Hfirst. apply kept_first.
    + now apply accepted_true.
    + intros r' Hin Hacc'. apply Hfirst; [exact Hin | now apply accepted_true].
Qed.

Lemma filter_repos_witness :
  exists valid,
    outcome (filter_repos (collector 0 0 0) candidates)
    = inr (None, set_valid_repos (collector 0 0 0) (Some valid))
    /\ valid `sublist_of` candidates
    /\ NoDup (signature <$> valid).
Proof.
  destruct (filter_repos_returns_none_and_stores_first
              (collector 0 0 0) candidates)
    as (valid & Hret & Hsub & _ & Hnodup & _).
  - unfold candidates.
    repeat (constructor; [eexists; vm_compute; reflexivity|]). constructor.
  - exists valid. auto.
Defined.

(** On the sample candidates the call returns [None] and leaves the first
    [empty_repo] and [other_repo] in [valid_repos]. *)
Lemma filter_repos_example :
  outcome (filter_repos (collector 0 0 0) candidates)
  = inr (None,
         set_valid_repos (collector 0 0 0) (Some [empty_repo; other_repo])).
Proof. vm_compute. reflexivity. Qed.

End FilterClaims.

(** *** Pull-request collection *)

Section PullRequests.
Import Py Collector Spec Examples.

(** The inner loop appends the rows of the pull requests it gets through
    and ends with the first failure, if any. *)
Lemma pull_loop (repo : Repository) (l : PaginatedList PullRequest)
  (data : list PullRow) :
  exists t,
    for_paginated_s l (append_pull_row repo) data
    = (t, data ++ (rows_until_failure repo l).1,
       match (rows_until_failure repo l).2 with
       | Some e => inl e
       | None => inr tt
       end).
Proof.
  revert data. induction l as [|pr rest IH|e]; intros data.
  - exists []. simpl. unfold ret_s. rewrite (app_nil_r data); reflexivity.
  - cbn [for_paginated_s rows_until_failure]. unfold bind_s.
    unfold append_pull_row at 1.
    unfold mbind, MS_bind, M_bind, bind_s, lift_s, modify, bind, emit, lift.
    destruct (is_merged pr) as [e|m]; cbn [fst snd].
    + eexists. rewrite (app_nil_r data); reflexivity.
    + destruct (IH (data ++ [pull_row repo pr m])) as (t & Hrun).
      unfold pull_row in Hrun at 1. rewrite Hrun.
      destruct (rows_until_failure repo rest) as [rows failure].
      cbn [fst snd]. eexists. rewrite <- (app_assoc data). reflexivity.
  - exists []. simpl. unfold lift_s, raise. simpl. rewrite (app_nil_r data); reflexivity.
Qed.

(** The [try] statement on one repository never raises; it appends what
    the repository contributes, and reports a failure by its line. *)
Lemma collect_repo_pulls_run (repo : Repository) (data : list PullRow) :
  exists t,
    collect_repo_pulls repo data = (t, data ++ (repo_rows repo).1, inr tt)
    /\ forall e, (repo_rows repo).2 = Some e -> failure_line repo e ∈ t.
Proof.
  unfold collect_repo_pulls, repo_rows, try_except_s.
  unfold mbind, MS_bind, M_bind, bind_s, lift_s, bind, emit, lift.
  destruct (get_pulls repo "all" "created" "desc") as [e|pulls]; cbn [fst snd].
  { eexists. split; [rewrite (app_nil_r data); reflexivity|].
    intros e' [= <-]. unfold failure_line. set_solver. }
  destruct (totalCount pulls) as [e|n]; cbn [fst snd].
  { eexists. split; [rewrite (app_nil_r data); reflexivity|].
    intros e' [= <-]. unfold failure_line. set_solver. }
  destruct (pull_loop repo (pulls_pages pulls) data) as (t & ->).
  destruct (rows_until_failure repo (pulls_pages pulls)) as [rows [e|]];
    cbn [fst snd].
  - eexists. split; [reflexivity|].
    intros e' [= <-]. unfold failure_line. set_solver.
  - eexists. split; [reflexivity|]. intros e' [=].
Qed.

Lemma collect_loop (repos : list Repository) (data : list PullRow) :
  exists t,
    for_list_s repos collect_repo_pulls data
    = (t, data ++ concat ((fun r => (repo_rows r).1) <$> repos), inr tt)
    /\ forall r e, r ∈ repos -> (repo_rows r).2 = Some e ->
                   failure_line r e ∈ t.
Proof.
  revert data. induction repos as [|r repos IH]; intros data.
  - exists []. split; [simpl; unfold ret_s; rewrite (app_nil_r data); reflexivity|].
    intros r e Hin. inversion Hin.
  - cbn [for_list_s]. unfold bind_s.
    destruct (collect_repo_pulls_run r data) as (t1 & -> & Hline1).
    destruct (IH (data ++ (repo_rows r).1)) as (t2 & -> & Hline2).
    exists (t1 ++ t2). split.
    + rewrite fmap_cons. simpl concat. now rewrite <- app_assoc.
    + intros r' e [->|Hin]%elem_of_cons Hfail; apply elem_of_app.
      * left. now apply Hline1.
      * right. now apply (Hline2 r').
Qed.

(** A fetch without failure contributes the row of every pull request. *)
Lemma rows_of_complete_fetch (repo : Repository) (prs : list PullRequest)
  (ms : list bool) :
  is_merged <$> prs = inr <$> ms ->
  rows_until_failure repo (of_list prs)
  = (zip_with (pull_row repo) prs ms, None).
Proof.
  revert ms. induction prs as [|pr prs IH]; intros [|m ms] Heq;
    try discriminate; [reflexivity|].
  rewrite !fmap_cons in Heq. injection Heq as Hm Hrest.
  cbn [of_list rows_until_failure]. rewrite Hm, (IH ms Hrest). reflexivity.
Qed.

(** C5, as the code has it: collection never raises and its table is the
    concatenation, in input order, of what each repository contributes.
    A repository whose fetch raises contributes the rows of the pull
    requests handled before the failure (none when the failure comes
    first) and its failure is reported by a line; a repository whose
    fetch does not raise contributes the row of every pull request. *)
Theorem pull_requests_failure_isolated
  (self : GitHubCommitCollector) (repos : list Repository) :
  outcome (collect_pull_requests self (Some repos))
  = inr (concat ((fun r => (repo_rows r).1) <$> repos))
  /\ (forall r e,
        r ∈ repos -> (repo_rows r).2 = Some e ->
        failure_line r e ∈ trace (collect_pull_requests self (Some repos)))
  /\ (forall r pulls n prs ms,
        get_pulls r "all" "created" "desc" = inr pulls ->
        totalCount pulls = inr n ->
        pulls_pages pulls = of_list prs ->
        is_merged <$> prs = inr <$> ms ->
        repo_rows r = (zip_with (pull_row r) prs ms, None))
  /\ (forall r e,
        get_pulls r "all" "created" "desc" = inl e -> repo_rows r = ([], Some e)).
Proof.
  unfold collect_pull_requests, exec_s.
  destruct (collect_loop repos []) as (t & -> & Hlines).
  split; [reflexivity|]. split; [exact Hlines|]. split.
  - intros r pulls n prs ms Hget Hcount Hpages Hmerged.
    unfold repo_rows. rewrite Hget, Hcount, Hpages.
    now apply rows_of_complete_fetch.
  - intros r e Hget. unfold repo_rows. now rewrite Hget.
Qed.

Lemma pull_requests_failure_isolated_witness :
  outcome (collect_pull_requests (collector 200 5 5)
             (Some [rate_limited_repo; small_repo]))
  = inr [pull_row rate_limited_repo (pr 2 (inr true)) true;
         pull_row small_repo (pr 1 (inr false)) false]
  /\ repo_rows small_repo
     = ([pull_row small_repo (pr 1 (inr false)) false], None).
Proof.
  destruct (pull_requests_failure_isolated (collector 200 5 5)
              [rate_limited_repo; small_repo]) as (Hout & _ & Hall & _).
  split; [exact Hout|].
  apply (Hall small_repo
           {| totalCount := inr 1;
              pulls_pages := PageItem (pr 1 (inr false)) PageEnd |}
           1 [pr 1 (inr false)] [false]); reflexivity.
Defined.

(** C5 as stated fails: fetching the pull requests of [rate_limited_repo]
    raises on its second page and the error line is emitted, yet the row
    of its first pull request is in the table. *)
Lemma failed_fetch_keeps_rows :
  (repo_rows rate_limited_repo).2 = Some (ServiceError "rate limit exceeded")
  /\ Print "Failed to retrieve PRs from acme/big: rate limit exceeded"
     ∈ trace (collect_pull_requests (collector 200 5 5)
                (Some [rate_limited_repo; small_repo]))
  /\ outcome (collect_pull_requests (collector 200 5 5)
                (Some [rate_limited_repo; small_repo]))
     = inr [pull_row rate_limited_repo (pr 2 (inr true)) true;
            pull_row small_repo (pr 1 (inr false)) false]
  /\ repo_full_name (pull_row rate_limited_repo (pr 2 (inr true)) true)
     = full_name rate_limited_repo.
Proof.
  split; [reflexivity|]. split; [|split; reflexivity].
  vm_compute. repeat (apply list_elem_of_here || apply list_elem_of_further).
Qed.

End PullRequests.

(** *** Tokens of a response *)

Section Tokens.
Import Py Spec.

Lemma lstrip_all_space (ws s : string) :
  all_space ws = true -> lstrip (ws ++ s) = lstrip s.
Proof.
  induction ws as [|c ws IH]; [reflexivity|]. cbn [all_space].
  intros [Hc Hws]%andb_true_iff. simpl. rewrite Hc. now apply IH.
Qed.

Lemma lstrip_token (tok s : string) :
  tok <> EmptyString -> no_space tok = true ->
  lstrip (tok ++ s) = (tok ++ s)%string.
Proof.
  destruct tok as [|c tok]; [congruence|]. cbn [no_space].
  intros _ [Hc _]%andb_true_iff. apply negb_true_iff in Hc.
  simpl. now rewrite Hc.
Qed.

(** What [rstrip] leaves of a string that is empty or led by whitespace
    is again empty or led by whitespace. *)
Lemma rstrip_led_by_space (s : string) :
  led_by_space s -> led_by_space (rstrip s).
Proof.
  destruct s as [|c s]; cbn [led_by_space rstrip]; [trivial|]. intros Hc.
  destruct (rstrip s); [rewrite Hc|]; cbn [led_by_space]; trivial.
Qed.

Lemma rstrip_token (tok rest : string) :
  tok <> EmptyString -> no_space tok = true ->
  rstrip (tok ++ rest) = (tok ++ rstrip rest)%string.
Proof.
  induction tok as [|c tok IH]; [congruence|]. intros _ Hns.
  cbn [no_space] in Hns. apply andb_true_iff in Hns as [Hc Hns].
  apply negb_true_iff in Hc.
  change (rstrip (String c tok ++ rest))
    with (match rstrip (tok ++ rest) with
          | EmptyString =>
              if isspace c then EmptyString else String c EmptyString
          | t => String c t
          end).
  destruct tok as [|c' tok].
  - change (EmptyString ++ rest)%string with rest.
    destruct (rstrip rest); [now rewrite Hc | reflexivity].
  - rewrite IH by (congruence || assumption). reflexivity.
Qed.

Lemma rev_app_rev_app (tok a b : string) :
  String.rev_app (String.rev_app tok a) b = String.rev_app a (tok ++ b).
Proof.
  revert a b. induction tok as [|c tok IH]; intros a b; simpl;
    [reflexivity|]. now rewrite IH.
Qed.

Lemma rev_app_nonempty (tok a : string) :
  tok <> EmptyString -> String.rev_app tok a <> EmptyString.
Proof.
  revert a. induction tok as [|c tok IH]; intros a; [congruence|].
  intros _. simpl. destruct tok as [|c' tok]; [discriminate|].
  apply IH. discriminate.
Qed.

Lemma split_go_token (tok cur s : string) :
  no_space tok = true ->
  split_go cur (tok ++ s) = split_go (String.rev_app tok cur) s.
Proof.
  revert cur. induction tok as [|c tok IH]; intros cur; [reflexivity|].
  cbn [no_space]. intros [Hc Hns]%andb_true_iff. apply negb_true_iff in Hc.
  simpl. rewrite Hc. now apply IH.
Qed.

(** [response.text.strip().split()[0]] is the first whitespace-delimited
    token of the text. *)
Lemma first_token_split (s tok : string) :
  first_token s tok -> item0 (split (strip s)) = inr tok.
Proof.
  intros (ws & rest & -> & Hws & Hne & Hns & Hrest).
  unfold strip. rewrite lstrip_all_space, lstrip_token, rstrip_token
    by assumption.
  unfold split. rewrite split_go_token by assumption.
  assert (Hrev : String.rev (String.rev_app tok "") = tok).
  { unfold String.rev. rewrite rev_app_rev_app. simpl.
    clear. induction tok as [|c tok IH]; [reflexivity|].
    change (String c (tok ++ "") = String c tok)%string. now rewrite IH. }
  pose proof (rev_app_nonempty tok "" Hne) as Hcur.
  pose proof (rstrip_led_by_space rest Hrest) as Hled.
  destruct (rstrip rest) as [|c r]; cbn [split_go].
  - destruct (String.rev_app tok "") eqn:E; [congruence|].
    cbn [item0]. now rewrite Hrev.
  - cbn [led_by_space] in Hled. rewrite Hled.
    destruct (String.rev_app tok "") eqn:E; [congruence|].
    cbn [item0]. now rewrite Hrev.
Qed.

(** A text of whitespace only has no token. *)
Lemma no_token_split (s : string) :
  all_space s = true -> split (strip s) = [].
Proof.
  intros Hs. unfold strip.
  replace (lstrip s) with EmptyString; [reflexivity|].
  induction s as [|c s IH]; cbn [lstrip]; [reflexivity|].
  cbn [all_space] in Hs. apply andb_true_iff in Hs as [Hc Hs].
  rewrite Hc. now apply IH.
Qed.

End Tokens.

(** *** The classifiers *)

Section Classifiers.
Import Py Spec.

Context {World : Type}.
Variable generate_content : list string -> World -> result Gemini.Response * World.
Variable create :
  string -> list (string * string) -> Z -> World -> result Gpt.Response * World.

(** The [except] branch of the Gemini classifier. *)
Lemma gemini_caught (survey msg : string) (w w' : World) (e : exn) :
  generate_content [Gemini.prompt survey msg] w = (inl e, w') ->
  Gemini.classify_commit generate_content survey msg w
  = ([GenerateContent (Gemini.prompt survey msg);
      Print ("Error during classification: " ++ exn_str e)%string],
     w', inr "Error"%string).
Proof.
  intros Hcall. unfold Gemini.classify_commit, Gemini.call_model, try_except_s.
  unfold mbind, MS_bind, bind_s. rewrite Hcall. reflexivity.
Qed.

(** The Gemini classifier on a response that has a text. *)
Lemma gemini_answered (survey msg : string) (w w' : World) (txt : string) :
  generate_content [Gemini.prompt survey msg] w
  = (inr {| Gemini.text := inr txt |}, w') ->
  Gemini.classify_commit generate_content survey msg w
  = match txt with
    | EmptyString =>
        ([GenerateContent (Gemini.prompt survey msg)], w',
         inr "No response"%string)
    | _ =>
        match item0 (split (strip txt)) with
        | inr tok =>
            ([GenerateContent (Gemini.prompt survey msg)], w',
             inr (if bool_decide (tok ∈ Gemini.categories) then tok
                  else "Unknown"%string))
        | inl e =>
            ([GenerateContent (Gemini.prompt survey msg);
              Print ("Error during classification: " ++ exn_str e)%string],
             w', inr "Error"%string)
        end
    end.
Proof.
  intros Hcall. unfold Gemini.classify_commit, Gemini.call_model, try_except_s.
  unfold mbind, MS_bind, mret, MS_ret, bind_s, ret_s, lift_s, lift.
  rewrite Hcall. cbn [Gemini.text fst snd app].
  destruct txt as [|c txt]; [reflexivity|].
  destruct (item0 (split (strip (String c txt)))) as [e|tok]; cbn [fst snd app];
    [reflexivity|].
  case_bool_decide; reflexivity.
Qed.

(** The Gemini classifier always returns a string. *)
Lemma gemini_total (survey msg : string) (w : World) :
  exists t w' s,
    Gemini.classify_commit generate_content survey msg w = (t, w', inr s).
Proof.
  destruct (generate_content [Gemini.prompt survey msg] w) as [[e|[[e|txt]]] w']
    eqn:Hcall.
  - rewrite (gemini_caught _ _ _ _ _ Hcall). eauto.
  - unfold Gemini.classify_commit, Gemini.call_model, try_except_s.
    unfold mbind, MS_bind, bind_s, lift_s, lift. rewrite Hcall.
    cbn [Gemini.text fst snd app]. eauto.
  - rewrite (gemini_answered _ _ _ _ _ Hcall).
    destruct txt; [eauto|]. destruct (item0 _); eauto.
Qed.

Lemma gpt_caught (msg model : string) (w w' : World) (e : exn) :
  create model (Gpt.messages msg) 0 w = (inl e, w') ->
  Gpt.classify_commit create msg model w
  = ([ChatCompletion model (Gpt.messages msg);
      Print ("Error: " ++ exn_str e)%string],
     w', inr "Error"%string).
Proof.
  intros Hcall. unfold Gpt.classify_commit, Gpt.call_service, try_except_s.
  unfold mbind, MS_bind, bind_s. fold (Gpt.messages msg).
  rewrite Hcall. reflexivity.
Qed.

Lemma gpt_answered (msg model : string) (w w' : World)
  (c : Gpt.Choice) (cs : list Gpt.Choice) :
  create model (Gpt.messages msg) 0 w = (inr {| Gpt.choices := c :: cs |}, w') ->
  Gpt.classify_commit create msg model w
  = ([ChatCompletion model (Gpt.messages msg)], w',
     inr (strip (Gpt.content (Gpt.message c)))).
Proof.
  intros Hcall. unfold Gpt.classify_commit, Gpt.call_service, try_except_s.
  unfold mbind, MS_bind, bind_s. fold (Gpt.messages msg).
  rewrite Hcall. reflexivity.
Qed.

Lemma gpt_total (msg model : string) (w : World) :
  exists t w' s, Gpt.classify_commit create msg model w = (t, w', inr s).
Proof.
  destruct (create model (Gpt.messages msg) 0 w) as [[e|[[|c cs]]] w']
    eqn:Hcall.
  - rewrite (gpt_caught _ _ _ _ _ Hcall). eauto.
  - unfold Gpt.classify_commit, Gpt.call_service, try_except_s.
    unfold mbind, MS_bind, bind_s. fold (Gpt.messages msg).
    rewrite Hcall. cbn. eauto.
  - rewrite (gpt_answered _ _ _ _ _ _ Hcall). eauto.
Qed.

(** The batch loop ends normally, with a classification for every commit
    message it was given on top of those it started from. *)
Lemma gemini_batch_loop (commits : list string) (survey : string)
  (results : gmap string string) (w : World) :
  exists t w' results',
    fold_s commits
      (fun commit_message results =>
         classification ←
           Gemini.classify_commit generate_content survey commit_message;
         mret (<[commit_message := classification]> results))
      results w
    = (t, w', inr results')
    /\ dom results' = dom results ∪ list_to_set commits.
Proof.
  set (body := fun (commit_message : string) (results : gmap string string) =>
                 classification ←
                   Gemini.classify_commit generate_content survey commit_message;
                 mret (<[commit_message := classification]> results)).
  revert results w. induction commits as [|m commits IH]; intros results w.
  - exists [], w, results. split; [reflexivity|].
    now rewrite list_to_set_nil, (right_id_L ∅ (∪)).
  - cbn [fold_s]. unfold bind_s at 1, body at 1.
    unfold mbind, MS_bind, bind_s, mret, MS_ret, ret_s.
    destruct (gemini_total survey m w) as (t1 & w1 & s & ->).
    destruct (IH (<[m := s]> results) w1) as (t2 & w2 & results' & -> & Hdom).
    eexists _, _, _. split; [reflexivity|].
    rewrite Hdom, dom_insert_L, list_to_set_cons.
    rewrite (assoc_L (∪)). f_equal. apply (comm_L (∪)).
Qed.

End Classifiers.

Section ClassifierClaims.
Import Py Spec Examples.

(** C2, as the code has it.  The Gemini classifier returns the first
    whitespace-delimited token of the response text when that token is one
    of the five labels, and [Unknown] when it is not; a text without any
    token gives [No response] when empty and [Error] otherwise.  The GPT
    classifier does not look at the labels: it returns the response text,
    stripped of surrounding whitespace, as it is. *)
Theorem classifiers_parse_response (World : Type)
  (generate_content : list string -> World -> result Gemini.Response * World)
  (create : string -> list (string * string) -> Z -> World
            -> result Gpt.Response * World)
  (survey msg model : string) (w : World) :
  (forall txt w',
      generate_content [Gemini.prompt survey msg] w
      = (inr {| Gemini.text := inr txt |}, w') ->
      (forall tok,
          first_token txt tok ->
          (Gemini.classify_commit generate_content survey msg w).2
          = inr (if bool_decide (tok ∈ Gemini.categories) then tok
                 else "Unknown"%string))
      /\ (txt = EmptyString ->
          (Gemini.classify_commit generate_content survey msg w).2
          = inr "No response"%string)
      /\ (txt <> EmptyString -> all_space txt = true ->
          (Gemini.classify_commit generate_content survey msg w).2
          = inr "Error"%string))
  /\ (forall c cs w',
         create model (Gpt.messages msg) 0 w
         = (inr {| Gpt.choices := c :: cs |}, w') ->
         (Gpt.classify_commit create msg model w).2
         = inr (strip (Gpt.content (Gpt.message c)))).
Proof.
  split.
  - intros txt w' Hcall.
    rewrite (gemini_answered generate_content survey msg w w' txt Hcall).
    split; [|split].
    + intros tok Htok. rewrite (first_token_split txt tok Htok).
      destruct txt as [|c txt]; [|reflexivity].
      destruct Htok as (ws & rest & Heq & _ & Hne & _).
      destruct ws; [destruct tok; [congruence|discriminate]|discriminate].
    + intros ->. reflexivity.
    + intros Hne Hall. rewrite (no_token_split txt Hall).
      destruct txt; [congruence|reflexivity].
  - intros c cs w' Hcall.
    now rewrite (gpt_answered create msg model w w' c cs Hcall).
Qed.

Lemma classifiers_parse_response_witness :
  (Gemini.classify_commit (gemini_says "Corrective") "survey" "Fix login" tt).2
  = inr "Corrective"%string
  /\ (Gpt.classify_commit (gpt_says " Corrective ") "Fix login" "gpt-4o" tt).2
     = inr "Corrective"%string.
Proof.
  destruct (classifiers_parse_response unit (gemini_says "Corrective")
              (gpt_says " Corrective ") "survey" "Fix login" "gpt-4o" tt)
    as [Hgemini Hgpt].
  split.
  - destruct (Hgemini "Corrective"%string tt eq_refl) as [Htok _].
    apply (Htok "Corrective"%string).
    exists EmptyString, EmptyString. repeat split. discriminate.
  - apply (Hgpt {| Gpt.message := {| Gpt.content := " Corrective " |} |} [] tt).
    reflexivity.
Defined.

(** C2 as stated fails on the GPT classifier: the first token of the
    response [Banana extra text] is [Banana], which is none of the five
    labels, and the classifier returns the whole response, not
    [Unknown]. *)
Lemma gpt_returns_unlisted_response :
  first_token "Banana extra text" "Banana"
  /\ ~ In "Banana"%string Gemini.categories
  /\ (Gpt.classify_commit (gpt_says "Banana extra text") "Fix login" "gpt-4o" tt).2
     = inr "Banana extra text"%string
  /\ (Gpt.classify_commit (gpt_says "Banana extra text") "Fix login" "gpt-4o" tt).2
     <> inr "Unknown"%string.
Proof.
  split; [|split; [|split]].
  - exists EmptyString, " extra text"%string. repeat split. discriminate.
  - intros Hin. simpl in Hin.
    repeat destruct Hin as [Hin|Hin]; try discriminate; contradiction.
  - reflexivity.
  - discriminate.
Qed.

(** On the same response the Gemini classifier answers [Unknown]. *)
Lemma gemini_unknown_example :
  (Gemini.classify_commit (gemini_says "Banana extra text") "survey"
     "Fix login" tt).2
  = inr "Unknown"%string.
Proof. reflexivity. Qed.

(** C7: when the remote call raises, each classifier catches the
    exception, prints a line that reports it and returns [Error]; neither
    classifier ever raises, whatever the service does; and the batch
    classification ends normally with a result for every commit message. *)
Theorem classifier_errors_become_sentinel (World : Type)
  (generate_content : list string -> World -> result Gemini.Response * World)
  (create : string -> list (string * string) -> Z -> World
            -> result Gpt.Response * World)
  (survey msg model : string) (w : World) :
  (forall e w',
      generate_content [Gemini.prompt survey msg] w = (inl e, w') ->
      Gemini.classify_commit generate_content survey msg w
      = ([GenerateContent (Gemini.prompt survey msg);
          Print ("Error during classification: " ++ exn_str e)%string],
         w', inr "Error"%string))
  /\ (forall e w',
         create model (Gpt.messages msg) 0 w = (inl e, w') ->
         Gpt.classify_commit create msg model w
         = ([ChatCompletion model (Gpt.messages msg);
             Print ("Error: " ++ exn_str e)%string],
            w', inr "Error"%string))
  /\ (exists s, (Gemini.classify_commit generate_content survey msg w).2 = inr s)
  /\ (exists s, (Gpt.classify_commit create msg model w).2 = inr s)
  /\ (forall commits,
         exists results,
           (Gemini.classify_multiple_commits generate_content commits survey w).2
           = inr results
           /\ dom results = list_to_set commits).
Proof.
  split; [|split; [|split; [|split]]].
  - intros e w'. apply gemini_caught.
  - intros e w'. apply gpt_caught.
  - destruct (gemini_total generate_content survey msg w) as (t & w' & s & ->).
    now exists s.
  - destruct (gpt_total create msg model w) as (t & w' & s & ->).
    now exists s.
  - intros commits. unfold Gemini.classify_multiple_commits.
    destruct (gemini_batch_loop generate_content commits survey ∅ w)
      as (t & w' & results & -> & Hdom).
    exists results. split; [reflexivity|].
    now rewrite Hdom, dom_empty_L, (left_id_L ∅ (∪)).
Qed.

Lemma classifier_errors_witness :
  (Gemini.classify_commit gemini_down "survey" "Fix login" tt).2
  = inr "Error"%string
  /\ (Gpt.classify_commit gpt_down "Fix login" "gpt-4o" tt).2
     = inr "Error"%string.
Proof.
  destruct (classifier_errors_become_sentinel unit gemini_down gpt_down
              "survey" "Fix login" "gpt-4o" tt) as (Hgemini & Hgpt & _).
  split.
  - now rewrite (Hgemini (ServiceError "503 unavailable") tt eq_refl).
  - now rewrite (Hgpt (ServiceError "503 unavailable") tt eq_refl).
Defined.

End ClassifierClaims.

(** ** Further properties of the code *)

(** *** The validator on any commit history *)

Section ValidatorRuns.
Import Py Collector Spec.

(** The fetch loop on any paginated list: it raises the failure of the list
    when there is one, and otherwise has appended every date and message. *)
Lemma fetch_loop_run (l : PaginatedList Commit) (ds : list datetime)
  (ms : list string) :
  for_paginated l
    (fun commit '(commit_dates, messages) =>
       ret (commit_dates ++ [date (author (Collector.commit commit))],
            messages ++ [message (Collector.commit commit)]))
    (ds, ms)
  = ([], match pages_failure l with
         | Some e => inl e
         | None => inr (ds ++ (commit_date <$> pages_items l),
                        ms ++ (commit_message <$> pages_items l))
         end).
Proof.
  revert ds ms.
  induction l as [|c rest IH|e]; intros ds ms;
    cbn [for_paginated pages_failure pages_items fmap list_fmap].
  - now rewrite !app_nil_r.
  - rewrite bind_ret_l, IH. destruct (pages_failure rest); [reflexivity|].
    rewrite <- !app_assoc. reflexivity.
  - reflexivity.
Qed.

Lemma pages_of_list {A} (l : PaginatedList A) :
  pages_failure l = None -> l = of_list (pages_items l).
Proof.
  induction l as [|x rest IH|e]; cbn [pages_failure pages_items of_list].
  - reflexivity.
  - intros H. now rewrite <- IH.
  - discriminate.
Qed.

Lemma pages_items_of_list {A} (l : list A) :
  pages_items (of_list l) = l /\ pages_failure (of_list l) = None.
Proof.
  induction l as [|x l [IH1 IH2]]; cbn [of_list pages_items pages_failure];
    [easy|]. now rewrite IH1.
Qed.

(** The validator on a repository that is neither an excluded fork nor
    excluded by a keyword. *)
Lemma repo_is_valid_run (self : GitHubCommitCollector) (repo : Repository) :
  exclude_forks self && fork repo = false ->
  has_exclusion_keyword self repo = false ->
  _repo_is_valid self repo
  = ([GetCommits (full_name repo);
      Progress ("Analyzing commits in " ++ full_name repo)%string],
     match pages_failure (get_commits repo since until) with
     | Some e => inl e
     | None => decide_on_history self (pages_items (get_commits repo since until))
     end).
Proof.
  intros Hfork Hkw.
  destruct (pages_failure (get_commits repo since until)) as [e|] eqn:Hfail.
  - unfold _repo_is_valid. rewrite Hfork, Hkw.
    unfold mbind, M_bind, mret, M_ret. rewrite fetch_loop_run, Hfail.
    reflexivity.
  - apply repo_is_valid_fetched; [assumption|assumption|].
    now apply pages_of_list.
Qed.

(** The trace of a validation asks for the commit history at most once, and
    only for the repository that is validated. *)
Lemma repo_is_valid_fetches (self : GitHubCommitCollector) (repo : Repository) :
  commit_fetches (trace (_repo_is_valid self repo))
  = if (exclude_forks self && fork repo) || has_exclusion_keyword self repo
    then [] else [full_name repo].
Proof.
  destruct (exclude_forks self && fork repo) eqn:Hfork.
  - now rewrite repo_is_valid_fork.
  - destruct (has_exclusion_keyword self repo) eqn:Hkw.
    + now rewrite repo_is_valid_keyword.
    + now rewrite repo_is_valid_run.
Qed.

Lemma count_words_go_nonneg (b : bool) (s : string) : 0 <= count_words_go b s.
Proof.
  revert b. induction s as [|c s IH]; intros b; cbn [count_words_go]; [lia|].
  destruct (is_word c).
  - specialize (IH true). destruct b; lia.
  - apply IH.
Qed.

Lemma sum_nonneg (l : list Z) : Forall (fun z => 0 <= z) l -> 0 <= sum l.
Proof.
  unfold sum. intros H.
  assert (Hacc : forall acc, 0 <= acc -> 0 <= fold_left Z.add l acc).
  { induction H as [|z l Hz _ IH]; intros acc Hacc; cbn [fold_left];
      [exact Hacc|]. apply IH. lia. }
  apply Hacc. lia.
Qed.

Lemma word_total_nonneg (messages : list string) :
  0 <= sum (count_words <$> messages).
Proof.
  apply sum_nonneg, Forall_fmap, Forall_forall. intros s _.
  apply count_words_go_nonneg.
Qed.

(** A quotient of a non-negative integer by a positive one is never below
    a non-positive integer. *)
Lemma truediv_nonneg_not_below (a b n : Z) (x : float) :
  0 <= a -> 0 < b -> n <= 0 ->
  truediv a b = inr x -> float_lt_int x n = false.
Proof.
  intros Ha Hb Hn. unfold truediv.
  destruct (Z.eqb_spec b 0) as [?|_]; [lia|].
  destruct b as [|pb|pb]; try lia.
  destruct a as [|pa|pa]; try lia; cbn [float_of_int].
  - cbn. intros [= <-]. cbn. apply Z.ltb_ge. lia.
  - unfold SFdiv.
    destruct (SFdiv_core_binary 53 1024 (Z.pos pa) 0 (Z.pos pb) 0)
      as [[mz ez] lz].
    unfold binary_round_aux.
    destruct (shr_fexp 53 1024 mz ez lz) as [mrs' e'].
    destruct (shr_fexp 53 1024 _ e' loc_Exact) as [mrs'' e''].
    destruct (shr_m mrs'') as [|m|m]; cbn [xorb].
    + intros [= <-]. cbn. apply Z.ltb_ge. lia.
    + destruct (e'' <=? 1024 - 53); [|discriminate].
      intros [= <-]. cbn [float_lt_int cond_Zopp].
      destruct (0 <=? e'') eqn:He; apply Z.ltb_ge.
      * apply Z.leb_le in He.
        assert (0 < 2 ^ e'') by (apply Z.pow_pos_nonneg; lia). nia.
      * apply Z.leb_gt in He.
        assert (0 < 2 ^ (- e'')) by (apply Z.pow_pos_nonneg; lia). nia.
    + intros [= <-]. reflexivity.
Qed.

Lemma weeks_size_le (commit_dates : list datetime) :
  (base.size (weeks commit_dates) <= length commit_dates)%nat.
Proof.
  unfold weeks. induction commit_dates as [|d l IH].
  - rewrite fmap_nil, list_to_set_nil, size_empty. lia.
  - rewrite fmap_cons, list_to_set_cons. cbn [length].
    pose proof (size_union_alt {[week_key d]}
                  (list_to_set (week_key <$> l) : gset (Z * Z))) as Hsz.
    rewrite Hsz, size_singleton.
    pose proof (subseteq_size
                  ((list_to_set (week_key <$> l) : gset (Z * Z)) ∖ {[week_key d]})
                  (list_to_set (week_key <$> l))) as Hle.
    assert ((list_to_set (week_key <$> l) : gset (Z * Z)) ∖ {[week_key d]}
            ⊆ list_to_set (week_key <$> l)) as Hsub
      by (intros x Hx; apply elem_of_difference in Hx; tauto).
    specialize (Hle Hsub). lia.
Qed.

End ValidatorRuns.

Section ValidatorExtras.
Import Py Collector Spec Examples.

(** A failure while the commit history is fetched is not caught by the
    validator: whatever the thresholds are and however many commits were
    read before, the validator ends with the exception of the failing
    request. *)
Theorem validator_propagates_fetch_failure
  (self : GitHubCommitCollector) (repo : Repository) (e : exn) :
  exclude_forks self && fork repo = false ->
  has_exclusion_keyword self repo = false ->
  pages_failure (get_commits repo since until) = Some e ->
  _repo_is_valid self repo
  = ([GetCommits (full_name repo);
      Progress ("Analyzing commits in " ++ full_name repo)%string],
     inl e).
Proof.
  intros Hfork Hkw Hfail. rewrite repo_is_valid_run by assumption.
  now rewrite Hfail.
Qed.

Lemma validator_propagates_fetch_failure_witness :
  outcome (_repo_is_valid (collector 0 0 0) flaky_repo)
  = inl (ServiceError "502 bad gateway").
Proof.
  rewrite (validator_propagates_fetch_failure (collector 0 0 0) flaky_repo
             (ServiceError "502 bad gateway")); reflexivity.
Defined.

(** When the commit history is fetched without failure, the validator
    accepts exactly the repositories that pass all five checks: not an
    excluded fork, no exclusion keyword, enough commits, enough active
    weeks, and an average word count that is not below the minimum. *)
Theorem validator_accepts_iff
  (self : GitHubCommitCollector) (repo : Repository) :
  pages_failure (get_commits repo since until) = None ->
  let commits := pages_items (get_commits repo since until) in
  outcome (_repo_is_valid self repo) = inr true
  <-> exclude_forks self && fork repo = false
      /\ has_exclusion_keyword self repo = false
      /\ min_commits_2024 self <= Z.of_nat (length commits)
      /\ min_active_weeks self
         <= Z.of_nat (base.size (weeks (commit_date <$> commits)))
      /\ exists a,
          avg_words (commit_message <$> commits) (Z.of_nat (length commits))
          = inr a
          /\ float_lt_int a (min_avg_words self) = false.
Proof.
  intros Hfail commits.
  destruct (exclude_forks self && fork repo) eqn:Hfork.
  { rewrite repo_is_valid_fork by assumption. split; [discriminate|].
    intros [? _]; discriminate. }
  destruct (has_exclusion_keyword self repo) eqn:Hkw.
  { rewrite repo_is_valid_keyword by assumption. split; [discriminate|].
    intros (_ & ? & _); discriminate. }
  rewrite repo_is_valid_run, Hfail by assumption.
  unfold outcome, decide_on_history. cbn [snd]. fold commits.
  destruct (Z.ltb_spec (Z.of_nat (length commits)) (min_commits_2024 self)).
  { split; [discriminate|]. intros (_ & _ & ? & _). lia. }
  destruct (Z.ltb_spec (Z.of_nat (base.size (weeks (commit_date <$> commits))))
              (min_active_weeks self)).
  { split; [discriminate|]. intros (_ & _ & _ & ? & _). lia. }
  destruct (avg_words _ _) as [e|a].
  { split; [discriminate|]. intros (_ & _ & _ & _ & a & ? & _). discriminate. }
  destruct (float_lt_int a (min_avg_words self)) eqn:Hlt; cbn [negb].
  - split; [discriminate|].
    intros (_ & _ & _ & _ & a' & [= <-] & ?). congruence.
  - split; [|reflexivity]. intros _. repeat split; try assumption.
    exists a. auto.
Qed.

Lemma validator_accepts_iff_witness :
  outcome (_repo_is_valid (collector 2 1 0) two_weeks_repo) = inr true
  /\ min_commits_2024 (collector 2 1 0)
     <= Z.of_nat (length (pages_items (get_commits two_weeks_repo since until))).
Proof.
  destruct (validator_accepts_iff (collector 2 1 0) two_weeks_repo eq_refl)
    as [Hacc _].
  split; [reflexivity|].
  destruct (Hacc eq_refl) as (_ & _ & Hc & _). exact Hc.
Defined.

(** The number of active weeks never exceeds the number of commits, so a
    repository with fewer commits than [min_active_weeks] is rejected, even
    when [min_commits_2024] lets it through. *)
Theorem fewer_commits_than_weeks_rejected
  (self : GitHubCommitCollector) (repo : Repository) :
  pages_failure (get_commits repo since until) = None ->
  Z.of_nat (length (pages_items (get_commits repo since until)))
  < min_active_weeks self ->
  outcome (_repo_is_valid self repo) = inr false.
Proof.
  intros Hfail Hlt.
  destruct (exclude_forks self && fork repo) eqn:Hfork.
  { now rewrite repo_is_valid_fork. }
  destruct (has_exclusion_keyword self repo) eqn:Hkw.
  { now rewrite repo_is_valid_keyword. }
  rewrite repo_is_valid_run, Hfail by assumption.
  unfold outcome, decide_on_history. cbn [snd].
  destruct (_ <? min_commits_2024 self); [reflexivity|].
  pose proof (weeks_size_le
                (commit_date <$> pages_items (get_commits repo since until)))
    as Hle.
  rewrite length_fmap in Hle.
  destruct (Z.ltb_spec
              (Z.of_nat (base.size
                           (weeks (commit_date
                                     <$> pages_items (get_commits repo since until)))))
              (min_active_weeks self)); [reflexivity|lia].
Qed.

Lemma fewer_commits_than_weeks_witness :
  outcome (_repo_is_valid (collector 0 3 0) two_weeks_repo) = inr false.
Proof.
  apply (fewer_commits_than_weeks_rejected (collector 0 3 0) two_weeks_repo);
    [reflexivity|]. vm_compute. reflexivity.
Defined.

(** [int / int] with a non-zero divisor can only raise [OverflowError]. *)
Lemma truediv_error (a b : Z) (e : exn) :
  b <> 0 -> truediv a b = inl e ->
  e = OverflowError "integer division result too large for a float".
Proof.
  intros Hb. unfold truediv.
  destruct (Z.eqb_spec b 0) as [?|_]; [contradiction|].
  destruct (SFdiv 53 1024 _ _); try discriminate. now intros [= <-].
Qed.

(** Thresholds that are zero or negative switch the three activity checks
    off: a repository that is not excluded and whose history is fetched is
    never rejected.  (The only other end is the overflow of the average on
    an astronomic word total.) *)
Theorem nonpositive_thresholds_never_reject
  (self : GitHubCommitCollector) (repo : Repository) :
  exclude_forks self && fork repo = false ->
  has_exclusion_keyword self repo = false ->
  pages_failure (get_commits repo since until) = None ->
  min_commits_2024 self <= 0 ->
  min_active_weeks self <= 0 ->
  min_avg_words self <= 0 ->
  outcome (_repo_is_valid self repo) = inr true
  \/ outcome (_repo_is_valid self repo)
     = inl (OverflowError "integer division result too large for a float").
Proof.
  intros Hfork Hkw Hfail Hc Hw Ha.
  rewrite repo_is_valid_run, Hfail by assumption.
  unfold outcome, decide_on_history. cbn [snd].
  set (commits := pages_items (get_commits repo since until)).
  destruct (Z.ltb_spec (Z.of_nat (length commits)) (min_commits_2024 self));
    [lia|].
  destruct (Z.ltb_spec (Z.of_nat (base.size (weeks (commit_date <$> commits))))
              (min_active_weeks self)); [lia|].
  destruct (avg_words _ _) as [e|a] eqn:Havg.
  - right. f_equal. unfold avg_words in Havg.
    apply truediv_error in Havg; [exact Havg | lia].
  - left. unfold avg_words in Havg.
    apply truediv_nonneg_not_below with (n := min_avg_words self) in Havg;
      [now rewrite Havg | apply word_total_nonneg | lia | exact Ha].
Qed.

Lemma nonpositive_thresholds_witness :
  outcome (_repo_is_valid (collector 0 0 0) two_weeks_repo) = inr true.
Proof.
  destruct (nonpositive_thresholds_never_reject (collector 0 0 0) two_weeks_repo
              eq_refl eq_refl eq_refl (Z.le_refl 0) (Z.le_refl 0) (Z.le_refl 0))
    as [H|H].
  - exact H.
  - vm_compute in H. discriminate.
Defined.

Lemma lower_app (a b : string) : lower (a ++ b) = (lower a ++ lower b)%string.
Proof.
  induction a as [|c a IH]; [reflexivity|].
  change (String (lower_char c) (lower (a ++ b))
          = String (lower_char c) (lower a ++ lower b))%string.
  now rewrite IH.
Qed.

(** The searched text always holds the space that joins name and
    description, and every text holds the empty string: an exclusion
    keyword that is empty or a single space rejects every repository,
    without any request for its commits. *)
Theorem blank_keyword_rejects_everything
  (self : GitHubCommitCollector) (repo : Repository) (kw : string) :
  kw ∈ exclusion_keywords self ->
  kw = EmptyString \/ kw = " "%string ->
  outcome (_repo_is_valid self repo) = inr false
  /\ commit_fetches (trace (_repo_is_valid self repo)) = [].
Proof.
  intros Hin Hkw.
  assert (Hhas : has_exclusion_keyword self repo = true).
  { unfold has_exclusion_keyword. apply existsb_exists.
    exists kw. split; [now apply list_elem_of_In|].
    apply contains_spec. unfold text. rewrite !lower_app.
    destruct Hkw as [-> | ->].
    - exists EmptyString. eexists. reflexivity.
    - exists (lower (name repo)), (lower (or_str (description repo) "")).
      reflexivity. }
  rewrite repo_is_valid_fetches, Hhas, orb_true_r.
  split; [|reflexivity].
  destruct (exclude_forks self && fork repo) eqn:Hfork.
  - now rewrite repo_is_valid_fork.
  - now rewrite repo_is_valid_keyword.
Qed.

Lemma blank_keyword_witness :
  outcome (_repo_is_valid (collector_with [" "%string]) two_weeks_repo)
  = inr false.
Proof.
  apply (blank_keyword_rejects_everything (collector_with [" "%string])
           two_weeks_repo " ").
  - apply list_elem_of_here.
  - right. reflexivity.
Defined.

End ValidatorExtras.

(** *** Active weeks of the observation year *)

Section ObservationYear.
Import Py Collector Spec Examples.

Lemma size_list_to_set_le `{Countable K} (l : list K) :
  (base.size (list_to_set l : gset K) <= length l)%nat.
Proof.
  induction l as [|x l IH].
  - rewrite list_to_set_nil, size_empty. lia.
  - rewrite list_to_set_cons. cbn [length].
    rewrite (size_union_alt {[x]} (list_to_set l : gset K)), size_singleton.
    assert (Hsub : (list_to_set l : gset K) ∖ {[x]} ⊆ list_to_set l)
      by (intros y Hy; apply elem_of_difference in Hy; tauto).
    apply subseteq_size in Hsub. lia.
Qed.

(** Every day of 2024 has an ISO week number between 1 and 52. *)
Lemma week_of_2024 (d : datetime) :
  valid_datetime d = true -> year d = 2024 ->
  exists w, week_key d = (w, 2024) /\ 1 <= w <= 52.
Proof.
  destruct d as [y m dd h mi s]. cbn [year]. intros Hvalid ->.
  unfold valid_datetime in Hvalid. cbn [year month day] in Hvalid.
  repeat (apply andb_true_iff in Hvalid as [Hvalid ?]).
  assert (Hm : 1 <= m <= 12) by lia.
  assert (Hd : 1 <= dd <= 31).
  { assert (Hdim : days_in_month 2024 m <= 31).
    { assert (Hcases : m = 1 \/ m = 2 \/ m = 3 \/ m = 4 \/ m = 5 \/ m = 6
                       \/ m = 7 \/ m = 8 \/ m = 9 \/ m = 10 \/ m = 11 \/ m = 12)
        by lia.
      repeat (destruct Hcases as [-> | Hcases]; [vm_compute; discriminate|]).
      subst m. vm_compute. discriminate. }
    lia. }
  assert (Hall : forallb (fun m => forallb (fun dd =>
                    negb (dd <=? days_in_month 2024 m)
                    || week_of_2024_in_range m dd) (seqZ 1 31)) (seqZ 1 12)
                 = true) by (vm_compute; reflexivity).
  rewrite forallb_forall in Hall.
  assert (Hmin : In m (seqZ 1 12)) by (apply list_elem_of_In, elem_of_seqZ; lia).
  specialize (Hall m Hmin). rewrite forallb_forall in Hall.
  assert (Hdin : In dd (seqZ 1 31)) by (apply list_elem_of_In, elem_of_seqZ; lia).
  specialize (Hall dd Hdin).
  assert (Hle : (dd <=? days_in_month 2024 m) = true) by (apply Z.leb_le; lia).
  rewrite Hle in Hall. cbn [negb orb] in Hall.
  unfold week_of_2024_in_range in Hall.
  apply andb_true_iff in Hall as [Hw1 Hw2].
  exists (isocalendar (mk_datetime 2024 m dd h mi s)).1.2.
  split; [reflexivity|].
  change (isocalendar (mk_datetime 2024 m dd h mi s))
    with (isocalendar (mk_datetime 2024 m dd 0 0 0)).
  lia.
Qed.

(** Commits whose author dates all lie in 2024 give at most 52 active
    weeks, so a repository with such a history is rejected whenever
    [min_active_weeks] is above 52. *)
Theorem at_most_52_active_weeks_in_2024
  (self : GitHubCommitCollector) (repo : Repository) :
  pages_failure (get_commits repo since until) = None ->
  Forall (fun c => valid_datetime (commit_date c) = true
                   /\ year (commit_date c) = 2024)
    (pages_items (get_commits repo since until)) ->
  (base.size (weeks (commit_date
                       <$> pages_items (get_commits repo since until))) <= 52)%nat
  /\ (52 < min_active_weeks self ->
      outcome (_repo_is_valid self repo) = inr false).
Proof.
  intros Hfail Hall.
  set (commits := pages_items (get_commits repo since until)) in *.
  assert (Hsize : (base.size (weeks (commit_date <$> commits)) <= 52)%nat).
  { set (all := (fun w => (w, 2024)) <$> seqZ 1 52).
    assert (Hsub : weeks (commit_date <$> commits)
                   ⊆ (list_to_set all : gset (Z * Z))).
    { intros k Hk. unfold weeks in Hk.
      apply elem_of_list_to_set, list_elem_of_fmap in Hk as (d & -> & Hd).
      apply list_elem_of_fmap in Hd as (c & -> & Hc).
      rewrite Forall_forall in Hall. destruct (Hall c Hc) as [Hv Hy].
      destruct (week_of_2024 _ Hv Hy) as (w & -> & Hw).
      apply elem_of_list_to_set, list_elem_of_fmap. exists w.
      split; [reflexivity|]. apply elem_of_seqZ. lia. }
    apply subseteq_size in Hsub.
    pose proof (size_list_to_set_le all) as Hle.
    assert (Hlen : length all = 52%nat)
      by (unfold all; now rewrite length_fmap, length_seqZ).
    lia. }
  split; [exact Hsize|]. intros Hmin.
  destruct (exclude_forks self && fork repo) eqn:Hfork.
  { now rewrite repo_is_valid_fork. }
  destruct (has_exclusion_keyword self repo) eqn:Hkw.
  { now rewrite repo_is_valid_keyword. }
  rewrite repo_is_valid_run, Hfail by assumption.
  unfold outcome, decide_on_history. cbn [snd]. fold commits.
  destruct (_ <? min_commits_2024 self); [reflexivity|].
  destruct (Z.ltb_spec (Z.of_nat (base.size (weeks (commit_date <$> commits))))
              (min_active_weeks self)); [reflexivity|lia].
Qed.

Lemma at_most_52_active_weeks_witness :
  outcome (_repo_is_valid (collector 0 53 0) busy_repo) = inr false.
Proof.
  destruct (at_most_52_active_weeks_in_2024 (collector 0 53 0) busy_repo)
    as [_ Hreject].
  - reflexivity.
  - unfold busy_repo, repo_with. cbn [get_commits].
    rewrite (proj1 (pages_items_of_list _)).
    apply Forall_forall. intros c Hc.
    apply list_elem_of_In, repeat_spec in Hc. subst c.
    split; reflexivity.
  - apply Hreject. reflexivity.
Defined.

End ObservationYear.

(** *** The filter and the commit collector on failing and repeated input *)

Section FilterRuns.
Import Py Collector Spec.

Variable self : GitHubCommitCollector.

Lemma commit_fetches_app (t1 t2 : list event) :
  commit_fetches (t1 ++ t2) = commit_fetches t1 ++ commit_fetches t2.
Proof.
  induction t1 as [|ev t1 IH]; [reflexivity|].
  destruct ev; cbn [app commit_fetches]; rewrite IH; reflexivity.
Qed.

(** One turn of the loop, when the validation raises. *)
Lemma filter_step_raise (r : Repository) (valid : list Repository)
  (seen : gset (string * Z)) (t0 : list event) (e : exn) :
  _repo_is_valid self r = (t0, inl e) ->
  filter_step self r (valid, seen) = (t0, inl e).
Proof.
  intros Hrun. unfold filter_step, mbind, M_bind. rewrite Hrun. reflexivity.
Qed.

(** The loop on repositories none of whose validations raises: its trace
    is the traces of the validations, in order. *)
Lemma filter_loop_trace (repos : list Repository) (valid : list Repository)
  (seen : gset (string * Z)) :
  Forall (fun r => exists b, outcome (_repo_is_valid self r) = inr b) repos ->
  exists seen',
    for_list repos (filter_step self) (valid, seen)
    = (concat ((fun r => trace (_repo_is_valid self r)) <$> repos),
       inr (valid ++ kept self seen repos, seen')).
Proof.
  intros Hall. revert valid seen.
  induction Hall as [|r repos [b Hb] _ IH]; intros valid seen.
  - exists seen. cbn. now rewrite app_nil_r.
  - cbn [for_list kept fmap list_fmap concat].
    destruct (_repo_is_valid self r) as [t0 o] eqn:Hrun.
    unfold outcome in Hb. cbn [snd] in Hb. subst o.
    rewrite (filter_step_run self r valid seen t0 b Hrun).
    assert (Hacc : accepted self r = b).
    { unfold accepted, outcome. rewrite Hrun. now destruct b. }
    rewrite Hacc. unfold bind, trace. cbn [fst].
    destruct (b && bool_decide (signature r ∉ seen)).
    + destruct (IH (valid ++ [r]) (seen ∪ {[signature r]})) as (seen' & ->).
      exists seen'. rewrite <- (app_assoc valid). reflexivity.
    + destruct (IH valid seen) as (seen' & ->).
      exists seen'. reflexivity.
Qed.

(** The loop stops at the first validation that raises. *)
Lemma filter_loop_raise (pre post : list Repository) (r : Repository)
  (e : exn) (valid : list Repository) (seen : gset (string * Z)) :
  Forall (fun r => exists b, outcome (_repo_is_valid self r) = inr b) pre ->
  outcome (_repo_is_valid self r) = inl e ->
  for_list (pre ++ r :: post) (filter_step self) (valid, seen)
  = (concat ((fun r => trace (_repo_is_valid self r)) <$> pre)
     ++ trace (_repo_is_valid self r),
     inl e).
Proof.
  intros Hall He. revert valid seen.
  induction Hall as [|r0 pre [b Hb] _ IH]; intros valid seen.
  - cbn [app for_list fmap list_fmap concat].
    destruct (_repo_is_valid self r) as [t0 o] eqn:Hrun.
    unfold outcome in He. cbn [snd] in He. subst o.
    rewrite (filter_step_raise r valid seen t0 e Hrun). reflexivity.
  - cbn [app for_list fmap list_fmap concat].
    destruct (_repo_is_valid self r0) as [t0 o] eqn:Hrun.
    unfold outcome in Hb. cbn [snd] in Hb. subst o.
    rewrite (filter_step_run self r0 valid seen t0 b Hrun).
    unfold bind, trace at 1. cbn [fst].
    destruct (b && bool_decide (signature r0 ∉ seen)); rewrite IH;
      rewrite <- app_assoc; reflexivity.
Qed.

(** A loop that ends normally met no validation that raises. *)
Lemma filter_loop_inv (repos : list Repository) (valid : list Repository)
  (seen : gset (string * Z)) (t : list event)
  (res : list Repository * gset (string * Z)) :
  for_list repos (filter_step self) (valid, seen) = (t, inr res) ->
  Forall (fun r => exists b, outcome (_repo_is_valid self r) = inr b) repos.
Proof.
  revert valid seen t res.
  induction repos as [|r repos IH]; intros valid seen t res Hrun.
  - constructor.
  - cbn [for_list] in Hrun.
    destruct (_repo_is_valid self r) as [t0 [e|b]] eqn:Hv.
    + rewrite (filter_step_raise r valid seen t0 e Hv) in Hrun. discriminate.
    + rewrite (filter_step_run self r valid seen t0 b Hv) in Hrun.
      unfold bind in Hrun.
      destruct (b && bool_decide (signature r ∉ seen)).
      * destruct (for_list repos (filter_step self) _) as [t' [e'|res']] eqn:Hl;
          [discriminate|].
        constructor; [exists b; unfold outcome; now rewrite Hv|].
        eapply IH. exact Hl.
      * destruct (for_list repos (filter_step self) _) as [t' [e'|res']] eqn:Hl;
          [discriminate|].
        constructor; [exists b; unfold outcome; now rewrite Hv|].
        eapply IH. exact Hl.
Qed.

(** An accepted repository had its commit history fetched without failure,
    and has at least [min_commits_2024] commits. *)
Lemma accepted_fetched (r : Repository) :
  accepted self r = true ->
  pages_failure (get_commits r since until) = None
  /\ min_commits_2024 self
     <= Z.of_nat (length (pages_items (get_commits r since until))).
Proof.
  unfold accepted.
  destruct (exclude_forks self && fork r) eqn:Hfork.
  { rewrite repo_is_valid_fork by assumption. discriminate. }
  destruct (has_exclusion_keyword self r) eqn:Hkw.
  { rewrite repo_is_valid_keyword by assumption. discriminate. }
  rewrite repo_is_valid_run by assumption. unfold outcome. cbn [snd].
  destruct (pages_failure (get_commits r since until)); [discriminate|].
  unfold decide_on_history.
  destruct (Z.ltb_spec (Z.of_nat (length (pages_items (get_commits r since until))))
              (min_commits_2024 self)); [discriminate|].
  intros _. split; [reflexivity|lia].
Qed.

(** The inner loop of [collect_commits] on one repository. *)
Lemma commit_rows_loop (repo : Repository) (l : PaginatedList Commit)
  (data : list CommitRow) :
  for_paginated l
    (fun commit data =>
       let c := Collector.commit commit in
       ret (data ++ [ {| c_repo_full_name := full_name repo;
                         c_commit_sha := sha commit;
                         c_author := author_name (author c);
                         c_date := date (author c);
                         c_message := strip (message c) |} ]))
    data
  = ([], match pages_failure l with
         | Some e => inl e
         | None => inr (data ++ (commit_row repo <$> pages_items l))
         end).
Proof.
  revert data.
  induction l as [|c rest IH|e]; intros data;
    cbn [for_paginated pages_failure pages_items fmap list_fmap].
  - now rewrite app_nil_r.
  - rewrite bind_ret_l, IH. destruct (pages_failure rest); [reflexivity|].
    rewrite <- app_assoc. reflexivity.
  - reflexivity.
Qed.

(** The outer loop of [collect_commits] on repositories whose histories
    are all fetched without failure. *)
Lemma collect_commits_loop (rs : list Repository) (data : list CommitRow) :
  Forall (fun r => pages_failure (get_commits r since until) = None) rs ->
  for_list rs
    (fun repo data =>
       emit (GetCommits (full_name repo));;
       for_paginated (get_commits repo since until)
         (fun commit data =>
            let c := Collector.commit commit in
            ret (data ++ [ {| c_repo_full_name := full_name repo;
                              c_commit_sha := sha commit;
                              c_author := author_name (author c);
                              c_date := date (author c);
                              c_message := strip (message c) |} ]))
         data)
    data
  = (GetCommits <$> (full_name <$> rs),
     inr (data
          ++ concat ((fun r => commit_row r
                                 <$> pages_items (get_commits r since until))
                       <$> rs))).
Proof.
  intros Hall. revert data.
  induction Hall as [|r rs Hr _ IH]; intros data.
  - cbn. now rewrite app_nil_r.
  - cbn [for_list fmap list_fmap concat].
    unfold mbind, M_bind. rewrite commit_rows_loop, Hr.
    unfold bind at 2, emit. cbn [app]. unfold bind. rewrite IH.
    rewrite <- app_assoc. reflexivity.
Qed.

(** The outer loop stops at the first history that fails. *)
Lemma collect_commits_loop_raise (pre post : list Repository) (r : Repository)
  (e : exn) (data : list CommitRow) :
  Forall (fun r => pages_failure (get_commits r since until) = None) pre ->
  pages_failure (get_commits r since until) = Some e ->
  for_list (pre ++ r :: post)
    (fun repo data =>
       emit (GetCommits (full_name repo));;
       for_paginated (get_commits repo since until)
         (fun commit data =>
            let c := Collector.commit commit in
            ret (data ++ [ {| c_repo_full_name := full_name repo;
                              c_commit_sha := sha commit;
                              c_author := author_name (author c);
                              c_date := date (author c);
                              c_message := strip (message c) |} ]))
         data)
    data
  = (GetCommits <$> (full_name <$> (pre ++ [r])), inl e).
Proof.
  intros Hall He. revert data.
  induction Hall as [|r0 pre Hr0 _ IH]; intros data.
  - cbn [app for_list fmap list_fmap].
    unfold mbind, M_bind. rewrite commit_rows_loop, He. reflexivity.
  - cbn [app for_list fmap list_fmap].
    unfold mbind, M_bind. rewrite commit_rows_loop, Hr0.
    unfold bind at 2, emit. cbn [app]. unfold bind. rewrite IH. reflexivity.
Qed.

End FilterRuns.

Section FilterExtras.
Import Py Collector Spec Examples.

(** The filter does not catch a failing validation: it ends with the
    exception of the first validation that raises, no list is stored, and
    the repositories after that one are not examined. *)
Theorem filter_repos_fail_fast
  (self : GitHubCommitCollector) (pre post : list Repository)
  (r : Repository) (e : exn) :
  Forall (fun r => exists b, outcome (_repo_is_valid self r) = inr b) pre ->
  outcome (_repo_is_valid self r) = inl e ->
  filter_repos self (pre ++ r :: post)
  = (Progress "Filtering repositories"
     :: concat ((fun r => trace (_repo_is_valid self r)) <$> pre)
     ++ trace (_repo_is_valid self r),
     inl e).
Proof.
  intros Hpre He. unfold filter_repos, mbind, M_bind.
  unfold bind at 2, emit.
  rewrite (filter_loop_raise self pre post r e [] ∅ Hpre He). reflexivity.
Qed.

Lemma filter_repos_fail_fast_witness :
  outcome (filter_repos (collector 0 0 0) ([empty_repo] ++ flaky_repo :: [other_repo]))
  = inl (ServiceError "502 bad gateway")
  /\ commit_fetches
       (trace (filter_repos (collector 0 0 0)
                 ([empty_repo] ++ flaky_repo :: [other_repo])))
     = ["acme/tool"; "acme/flaky"]%string.
Proof.
  rewrite (filter_repos_fail_fast (collector 0 0 0) [empty_repo] [other_repo]
             flaky_repo (ServiceError "502 bad gateway")).
  - split; reflexivity.
  - repeat constructor. exists true. reflexivity.
  - reflexivity.
Defined.

(** When no validation raises, the filter validates every candidate once
    per occurrence and in input order: the commit histories requested are
    those of the candidates that pass the fork and keyword checks, a
    repeated candidate being fetched again before it is dropped as a
    duplicate. *)
Theorem filter_repos_fetches_every_candidate
  (self : GitHubCommitCollector) (repos : list Repository) :
  Forall (fun r => exists b, outcome (_repo_is_valid self r) = inr b) repos ->
  trace (filter_repos self repos)
  = Progress "Filtering repositories"
    :: concat ((fun r => trace (_repo_is_valid self r)) <$> repos)
  /\ commit_fetches (trace (filter_repos self repos))
     = full_name <$> List.filter (fun r => negb (excluded self r)) repos.
Proof.
  intros Hall.
  assert (Htrace : trace (filter_repos self repos)
                   = Progress "Filtering repositories"
                     :: concat ((fun r => trace (_repo_is_valid self r)) <$> repos)).
  { unfold filter_repos, mbind, M_bind.
    destruct (filter_loop_trace self repos [] ∅ Hall) as (seen' & ->).
    unfold bind, emit, ret, trace. cbn [fst app]. now rewrite app_nil_r. }
  split; [exact Htrace|]. rewrite Htrace. cbn [commit_fetches].
  clear. induction repos as [|r repos IH]; [reflexivity|].
  cbn [fmap list_fmap concat List.filter].
  rewrite commit_fetches_app, repo_is_valid_fetches, IH.
  unfold excluded. destruct (_ || _); reflexivity.
Qed.

Lemma filter_repos_fetches_witness :
  commit_fetches (trace (filter_repos (collector 0 0 0) candidates))
  = ["acme/tool"; "acme/lib"; "acme/tool"]%string.
Proof.
  destruct (filter_repos_fetches_every_candidate (collector 0 0 0) candidates)
    as [_ Hfetch].
  - unfold candidates.
    repeat (constructor; [eexists; vm_compute; reflexivity|]). constructor.
  - rewrite Hfetch. reflexivity.
Defined.

(** [collect_commits] before any filtering has stored a list raises
    [TypeError]; on a stored list whose histories are all fetched it asks
    for each history once, in order, and returns one row per commit, with
    the message stripped, repository after repository. *)
Theorem collect_commits_rows (self : GitHubCommitCollector) :
  (valid_repos self = None ->
   collect_commits self
   = ([], inl (TypeError "'NoneType' object is not iterable")))
  /\ (forall rs,
         valid_repos self = Some rs ->
         Forall (fun r => pages_failure (get_commits r since until) = None) rs ->
         collect_commits self
         = (GetCommits <$> (full_name <$> rs),
            inr (concat ((fun r => commit_row r
                                     <$> pages_items (get_commits r since until))
                           <$> rs)))).
Proof.
  split.
  - intros Hnone. unfold collect_commits. now rewrite Hnone.
  - intros rs Hsome Hall. unfold collect_commits. rewrite Hsome.
    apply (collect_commits_loop rs [] Hall).
Qed.

Lemma collect_commits_rows_witness :
  outcome (collect_commits (collector 0 0 0))
  = inl (TypeError "'NoneType' object is not iterable")
  /\ outcome (collect_commits (filtered_collector [two_weeks_repo]))
     = inr [commit_row two_weeks_repo
              (commit_on (on_day 2024 1 1) "Fix the parser");
            commit_row two_weeks_repo
              (commit_on (on_day 2024 12 30) "Add a test")].
Proof.
  split.
  - destruct (collect_commits_rows (collector 0 0 0)) as [Hnone _].
    now rewrite (Hnone eq_refl).
  - destruct (collect_commits_rows (filtered_collector [two_weeks_repo]))
      as [_ Hrows].
    rewrite (Hrows [two_weeks_repo] eq_refl); [reflexivity|].
    repeat constructor.
Defined.

(** [collect_commits] does not catch a failing fetch either: it ends with
    the exception of the first history that fails, and the rows collected
    so far are lost with it. *)
Theorem collect_commits_fail_fast
  (self : GitHubCommitCollector) (pre post : list Repository)
  (r : Repository) (e : exn) :
  valid_repos self = Some (pre ++ r :: post) ->
  Forall (fun r => pages_failure (get_commits r since until) = None) pre ->
  pages_failure (get_commits r since until) = Some e ->
  collect_commits self
  = (GetCommits <$> (full_name <$> (pre ++ [r])), inl e).
Proof.
  intros Hsome Hpre He. unfold collect_commits. rewrite Hsome.
  apply (collect_commits_loop_raise pre post r e [] Hpre He).
Qed.

Lemma collect_commits_fail_fast_witness :
  outcome (collect_commits
             (filtered_collector ([two_weeks_repo] ++ flaky_repo :: [other_repo])))
  = inl (ServiceError "502 bad gateway").
Proof.
  rewrite (collect_commits_fail_fast
             (filtered_collector ([two_weeks_repo] ++ flaky_repo :: [other_repo]))
             [two_weeks_repo] [other_repo] flaky_repo
             (ServiceError "502 bad gateway")).
  - reflexivity.
  - reflexivity.
  - repeat constructor.
  - reflexivity.
Defined.

(** After a filtering that ended normally, [collect_commits] on the
    resulting collector cannot fail: it returns the rows of every stored
    repository, and each stored repository contributes at least
    [min_commits_2024] rows. *)
Theorem collect_commits_after_filter
  (self self' : GitHubCommitCollector) (repos : list Repository)
  (ret : option (list Repository)) :
  outcome (filter_repos self repos) = inr (ret, self') ->
  exists valid,
    valid_repos self' = Some valid
    /\ outcome (collect_commits self')
       = inr (concat ((fun r => commit_row r
                                  <$> pages_items (get_commits r since until))
                        <$> valid))
    /\ Forall (fun r =>
                 min_commits_2024 self
                 <= Z.of_nat (length (commit_row r
                                        <$> pages_items (get_commits r since until))))
         valid.
Proof.
  unfold filter_repos, mbind, M_bind. unfold bind at 2, emit.
  destruct (for_list repos (filter_step self) ([], ∅)) as [t [e|[valid seen]]]
    eqn:Hloop; unfold outcome, bind; cbn [snd]; [discriminate|].
  intros [= <- <-].
  pose proof (filter_loop_inv self repos [] ∅ t (valid, seen) Hloop) as Hall.
  destruct (filter_loop self repos [] ∅ Hall) as (t' & seen' & Hloop').
  rewrite Hloop in Hloop'. injection Hloop' as _ -> _. cbn [app].
  exists (kept self ∅ repos). split; [reflexivity|].
  pose proof (kept_accepted self ∅ repos) as Hacc.
  split.
  - unfold collect_commits. cbn [set_valid_repos valid_repos].
    rewrite (collect_commits_loop (kept self ∅ repos) []); [reflexivity|].
    eapply Forall_impl; [exact Hacc|].
    intros r Hr. now apply (accepted_fetched self).
  - eapply Forall_impl; [exact Hacc|].
    intros r Hr. rewrite length_fmap. now apply (accepted_fetched self).
Qed.

Lemma collect_commits_after_filter_witness :
  exists valid,
    valid_repos (set_valid_repos (collector 2 1 0) (Some [two_weeks_repo]))
    = Some valid
    /\ outcome (collect_commits
                  (set_valid_repos (collector 2 1 0) (Some [two_weeks_repo])))
       = inr (concat ((fun r => commit_row r
                                  <$> pages_items (get_commits r since until))
                        <$> valid)).
Proof.
  destruct (collect_commits_after_filter (collector 2 1 0)
              (set_valid_repos (collector 2 1 0) (Some [two_weeks_repo]))
              [forked_repo; two_weeks_repo; tutorial_repo] None)
    as (valid & Hstored & Hrows & _).
  - vm_compute. reflexivity.
  - exists valid. split; assumption.
Defined.

End FilterExtras.

(** *** Search and [run] *)

Section SearchRuns.
Import Py Collector Spec.

Context {SearchResults : Type}.
Variable search_repositories : string -> string -> string -> string -> SearchResults.
Variable slice_items : SearchResults -> Z -> Z -> result (list Repository).

(** The loop of [search_repos] on pages that are all read: the slices are
    appended in the order of the pages. *)
Lemma search_loop (self : GitHubCommitCollector) (query : string)
  (per_page : Z) (items : Z -> list Repository) (pages : list Z)
  (repos : list Repository) :
  (forall page, page ∈ pages ->
     slice_items (search_repositories (g self) query "stars" "desc")
       (page * per_page - per_page) (page * per_page)
     = inr (items page)) ->
  for_list pages
    (fun page repos =>
       result ←
         lift (slice_items (search_repositories (g self) query "stars" "desc")
                 (page * per_page - per_page) (page * per_page));
       ret (repos ++ result))
    repos
  = ([], inr (repos ++ concat (items <$> pages))).
Proof.
  revert repos. induction pages as [|page pages IH]; intros repos Hall.
  - cbn. now rewrite app_nil_r.
  - cbn [for_list fmap list_fmap concat]. unfold mbind, M_bind.
    rewrite (Hall page) by apply list_elem_of_here.
    unfold bind at 2, lift, ret. cbn [app]. unfold bind.
    rewrite IH by (intros p Hp; apply Hall; now apply list_elem_of_further).
    rewrite <- app_assoc. reflexivity.
Qed.

(** The loop stops at the first page that cannot be read. *)
Lemma search_loop_raise (self : GitHubCommitCollector) (query : string)
  (per_page : Z) (items : Z -> list Repository) (pre post : list Z) (p : Z)
  (e : exn) (repos : list Repository) :
  (forall page, page ∈ pre ->
     slice_items (search_repositories (g self) query "stars" "desc")
       (page * per_page - per_page) (page * per_page)
     = inr (items page)) ->
  slice_items (search_repositories (g self) query "stars" "desc")
    (p * per_page - per_page) (p * per_page)
  = inl e ->
  for_list (pre ++ p :: post)
    (fun page repos =>
       result ←
         lift (slice_items (search_repositories (g self) query "stars" "desc")
                 (page * per_page - per_page) (page * per_page));
       ret (repos ++ result))
    repos
  = ([], inl e).
Proof.
  revert repos. induction pre as [|page pre IH]; intros repos Hall He.
  - cbn [app for_list]. unfold mbind, M_bind. rewrite He. reflexivity.
  - cbn [app for_list]. unfold mbind, M_bind.
    rewrite (Hall page) by apply list_elem_of_here.
    unfold bind at 2, lift, ret. cbn [app]. unfold bind.
    rewrite IH; [reflexivity| |exact He].
    intros q Hq. apply Hall. now apply list_elem_of_further.
Qed.

(** The slices of a list by pages of [k] items, put end to end, are its
    first items. *)
Lemma pages_of_ranking {A} (l : list A) (k : Z) (n : nat) :
  0 <= k ->
  concat ((fun page => list_slice l (page * k - k) (page * k))
            <$> seqZ 1 (Z.of_nat n))
  = take (Z.to_nat (Z.of_nat n * k)) l.
Proof.
  intros Hk. induction n as [|n IH].
  - cbn. now rewrite take_0.
  - replace (Z.of_nat (S n)) with (Z.of_nat n + 1) by lia.
    rewrite seqZ_app by lia. rewrite fmap_app, concat_app, IH.
    rewrite (seqZ_cons _ 1) by lia. rewrite seqZ_nil by lia.
    cbn [fmap list_fmap concat]. rewrite app_nil_r. unfold list_slice.
    replace (Z.to_nat ((1 + Z.of_nat n) * k - k)) with (Z.to_nat (Z.of_nat n * k))
      by (f_equal; lia).
    replace (Z.to_nat ((1 + Z.of_nat n) * k - ((1 + Z.of_nat n) * k - k)))
      with (Z.to_nat k) by (f_equal; lia).
    rewrite take_take_drop. f_equal. nia.
Qed.

End SearchRuns.

Section SearchExtras.
Import Py Collector Spec Examples.

(** [search_repos] reads the pages 1 to [max_pages] in order, page [p]
    being the slice from [p * per_page - per_page] to [p * per_page] of a
    new search sorted by stars in descending order, and returns the slices
    put end to end; with [max_pages] below 1 it returns the empty list
    without reading any page. *)
Theorem search_repos_concatenates_pages {SearchResults : Type}
  (search_repositories : string -> string -> string -> string -> SearchResults)
  (slice_items : SearchResults -> Z -> Z -> result (list Repository))
  (self : GitHubCommitCollector) (query : string) (per_page max_pages : Z) :
  (max_pages <= 0 ->
   search_repos search_repositories slice_items self query per_page max_pages
   = ([], inr []))
  /\ (forall items : Z -> list Repository,
         (forall page, 1 <= page <= max_pages ->
            slice_items (search_repositories (g self) query "stars" "desc")
              (page * per_page - per_page) (page * per_page)
            = inr (items page)) ->
         search_repos search_repositories slice_items self query per_page max_pages
         = ([], inr (concat (items <$> seqZ 1 max_pages)))).
Proof.
  split.
  - intros Hle. unfold search_repos. now rewrite seqZ_nil.
  - intros items Hall. unfold search_repos.
    rewrite (search_loop search_repositories slice_items self query per_page
               items (seqZ 1 max_pages) []); [reflexivity|].
    intros page Hin. apply elem_of_seqZ in Hin. apply Hall. lia.
Qed.

Lemma search_repos_concatenates_pages_witness :
  search_repos sample_search sample_slice (collector 200 5 5) "language:python" 2 2
  = ([], inr [empty_repo; forked_repo; other_repo; tutorial_repo])
  /\ search_repos sample_search sample_slice (collector 200 5 5) "language:python" 2 0
     = ([], inr []).
Proof.
  destruct (search_repos_concatenates_pages sample_search sample_slice
              (collector 200 5 5) "language:python" 2 2) as [_ Hpages].
  destruct (search_repos_concatenates_pages sample_search sample_slice
              (collector 200 5 5) "language:python" 2 0) as [Hnone _].
  split.
  - rewrite (Hpages (fun page => list_slice ranking (page * 2 - 2) (page * 2)));
      [reflexivity|]. intros page _. reflexivity.
  - apply Hnone. lia.
Defined.

(** When the service answers every search with the same ranking and
    slices it as a list, [search_repos] returns the first
    [max_pages * per_page] repositories of the ranking, in ranking order. *)
Theorem search_repos_first_of_ranking {SearchResults : Type}
  (search_repositories : string -> string -> string -> string -> SearchResults)
  (slice_items : SearchResults -> Z -> Z -> result (list Repository))
  (self : GitHubCommitCollector) (query : string) (per_page max_pages : Z)
  (ranking : list Repository) :
  0 <= per_page -> 0 <= max_pages ->
  (forall start stop,
      0 <= start <= stop ->
      slice_items (search_repositories (g self) query "stars" "desc") start stop
      = inr (list_slice ranking start stop)) ->
  search_repos search_repositories slice_items self query per_page max_pages
  = ([], inr (take (Z.to_nat (max_pages * per_page)) ranking)).
Proof.
  intros Hpp Hmp Hslice. unfold search_repos.
  rewrite (search_loop search_repositories slice_items self query per_page
             (fun page => list_slice ranking (page * per_page - per_page)
                            (page * per_page))
             (seqZ 1 max_pages) []).
  - cbn [app]. rewrite <- (Z2Nat.id max_pages) at 1 by lia.
    rewrite pages_of_ranking by lia. now rewrite Z2Nat.id by lia.
  - intros page Hin. apply elem_of_seqZ in Hin. apply Hslice. nia.
Qed.

Lemma search_repos_first_of_ranking_witness :
  search_repos sample_search sample_slice (collector 200 5 5) "language:python" 2 2
  = ([], inr (take 4 ranking)).
Proof.
  apply (search_repos_first_of_ranking sample_search sample_slice
           (collector 200 5 5) "language:python" 2 2 ranking); try lia.
  intros start stop _. reflexivity.
Defined.

(** [search_repos] does not catch a page that cannot be read: it ends with
    the exception of the first such page, and the repositories of the
    pages read before are lost with it. *)
Theorem search_repos_fail_fast {SearchResults : Type}
  (search_repositories : string -> string -> string -> string -> SearchResults)
  (slice_items : SearchResults -> Z -> Z -> result (list Repository))
  (self : GitHubCommitCollector) (query : string) (per_page max_pages p : Z)
  (items : Z -> list Repository) (e : exn) :
  1 <= p <= max_pages ->
  (forall page, 1 <= page < p ->
     slice_items (search_repositories (g self) query "stars" "desc")
       (page * per_page - per_page) (page * per_page)
     = inr (items page)) ->
  slice_items (search_repositories (g self) query "stars" "desc")
    (p * per_page - per_page) (p * per_page)
  = inl e ->
  search_repos search_repositories slice_items self query per_page max_pages
  = ([], inl e).
Proof.
  intros Hp Hpre He. unfold search_repos.
  replace max_pages with ((p - 1) + (1 + (max_pages - p))) by lia.
  rewrite seqZ_app by lia. rewrite (seqZ_cons (1 + (p - 1))) by lia.
  replace (1 + (p - 1)) with p by lia.
  apply (search_loop_raise search_repositories slice_items self query per_page
           items); [|exact He].
  intros page Hin. apply elem_of_seqZ in Hin. apply Hpre. lia.
Qed.

Lemma search_repos_fail_fast_witness :
  search_repos sample_search failing_slice (collector 200 5 5) "language:python" 2 3
  = ([], inl (ServiceError "403 rate limit exceeded")).
Proof.
  apply (search_repos_fail_fast sample_search failing_slice (collector 200 5 5)
           "language:python" 2 3 2
           (fun page => list_slice ranking (page * 2 - 2) (page * 2))).
  - lia.
  - intros page Hpage. assert (page = 1) as -> by lia. reflexivity.
  - reflexivity.
Defined.

End SearchExtras.

(** *** Construction, [run] and what may follow them *)

Section PipelineExtras.
Import Py Collector Spec Examples.

(** The constructor succeeds exactly when the configuration file is read
    and holds a non-empty [github_token]; otherwise it raises [ValueError]
    on a missing or empty token, and lets the error of the file through.
    On success the client is built from the token, the thresholds are the
    ones given, a non-empty keyword list replaces the defaults entirely,
    and no repositories are stored yet. *)
Theorem init_requires_token
  (fs : string -> result (gmap string string)) (config_path : string)
  (min_commits min_weeks min_words : Z) (kws : option (list string))
  (forks : bool) :
  (forall e, fs config_path = inl e ->
     __init__ fs config_path min_commits min_weeks min_words kws forks
     = ([], inl e))
  /\ (forall config,
         fs config_path = inr config ->
         config !! "github_token"%string = None
         \/ config !! "github_token"%string = Some EmptyString ->
         __init__ fs config_path min_commits min_weeks min_words kws forks
         = ([], inl (ValueError "GitHub token not found in config file.")))
  /\ (forall config c t,
         fs config_path = inr config ->
         config !! "github_token"%string = Some (String c t) ->
         __init__ fs config_path min_commits min_weeks min_words kws forks
         = ([], inr {| g := String c t;
                       min_commits_2024 := min_commits;
                       min_active_weeks := min_weeks;
                       min_avg_words := min_words;
                       exclusion_keywords :=
                         match kws with
                         | Some (k :: ks) => k :: ks
                         | _ => ["student"; "exercise"; "tutorial"]%string
                         end;
                       exclude_forks := forks;
                       repos := None;
                       valid_repos := None |})).
Proof.
  unfold __init__, mbind, M_bind, bind, lift, ret, raise.
  split; [|split].
  - intros e ->. reflexivity.
  - intros config -> [-> | ->]; reflexivity.
  - intros config c t -> ->. destruct kws as [[|k ks]|]; reflexivity.
Qed.

Lemma init_requires_token_witness :
  outcome (__init__ missing_file_fs "config.json" 200 5 5 None true)
  = inl (ServiceError "No such file or directory: 'config.json'")
  /\ outcome (__init__ no_token_fs "config.json" 200 5 5 None true)
     = inl (ValueError "GitHub token not found in config file.")
  /\ outcome (__init__ config_fs "config.json" 200 5 5 (Some ["course"%string]) true)
     = inr (mk_collector "ghp_token" 200 5 5 ["course"%string] true None None).
Proof.
  destruct (init_requires_token missing_file_fs "config.json" 200 5 5 None true)
    as (Hfile & _ & _).
  destruct (init_requires_token no_token_fs "config.json" 200 5 5 None true)
    as (_ & Htoken & _).
  destruct (init_requires_token config_fs "config.json" 200 5 5
              (Some ["course"%string]) true) as (_ & _ & Hok).
  split; [|split].
  - now rewrite (Hfile _ eq_refl).
  - rewrite (Htoken _ eq_refl); [reflexivity|]. left. reflexivity.
  - rewrite (Hok _ "g"%char "hp_token"%string eq_refl); reflexivity.
Defined.

Lemma search_repos_trace {SearchResults : Type}
  (search_repositories : string -> string -> string -> string -> SearchResults)
  (slice_items : SearchResults -> Z -> Z -> result (list Repository))
  (self : GitHubCommitCollector) (query : string) (per_page max_pages : Z) :
  trace (search_repos search_repositories slice_items self query per_page
           max_pages) = [].
Proof.
  unfold search_repos. generalize (@nil Repository) as repos.
  induction (seqZ 1 max_pages) as [|page pages IH]; intros repos; [reflexivity|].
  cbn [for_list]. unfold mbind, M_bind.
  destruct (slice_items _ _ _) as [e|found]; [reflexivity|].
  unfold bind at 2, lift, ret. cbn [app]. unfold bind.
  specialize (IH (repos ++ found)). unfold trace in *.
  destruct (for_list pages _ (repos ++ found)) as [t [e|res]];
    cbn [fst] in *; now subst.
Qed.

(** [run] prints the query, stores what the search found in [repos],
    prints the number of repositories found and returns [None]: it neither
    filters nor collects, [valid_repos] and the criteria are left as they
    were, and no commit history is requested.  When the search raises, so
    does [run]. *)
Theorem run_only_searches {SearchResults : Type}
  (search_repositories : string -> string -> string -> string -> SearchResults)
  (slice_items : SearchResults -> Z -> Z -> result (list Repository))
  (self : GitHubCommitCollector) (query : string) (per_page max_pages : Z) :
  (forall found,
      outcome (search_repos search_repositories slice_items self query per_page
                 max_pages) = inr found ->
      run search_repositories slice_items self query per_page max_pages
      = ([Print ("Searching for repositories with query: " ++ query)%string;
          Print ("Found " ++ pretty (Z.of_nat (length found))
                 ++ " repositories.")%string],
         inr (None, set_repos self (Some found))))
  /\ (forall e,
         outcome (search_repos search_repositories slice_items self query
                    per_page max_pages) = inl e ->
         run search_repositories slice_items self query per_page max_pages
         = ([Print ("Searching for repositories with query: " ++ query)%string],
            inl e))
  /\ commit_fetches
       (trace (run search_repositories slice_items self query per_page max_pages))
     = [].
Proof.
  pose proof (search_repos_trace search_repositories slice_items self query
                per_page max_pages) as Htrace.
  unfold run, mbind, M_bind.
  destruct (search_repos search_repositories slice_items self query per_page
              max_pages) as [t [e|found]].
  all: unfold trace in Htrace; cbn [fst] in Htrace; subst t.
  all: unfold outcome; cbn [snd].
  - split; [|split]; [discriminate| |reflexivity]. now intros e' [= <-].
  - split; [|split]; [|discriminate|reflexivity]. now intros found' [= <-].
Qed.

Lemma run_only_searches_witness :
  run sample_search sample_slice (collector 200 5 5) "language:python" 2 2
  = ([Print "Searching for repositories with query: language:python";
      Print "Found 4 repositories."],
     inr (None, set_repos (collector 200 5 5) (Some (take 4 ranking)))).
Proof.
  destruct (run_only_searches sample_search sample_slice (collector 200 5 5)
              "language:python" 2 2) as [Hfound _].
  rewrite (Hfound (take 4 ranking) eq_refl). reflexivity.
Defined.

(** What may be called after construction and [run].  On a collector as
    [__init__] leaves it, [collect_commits] and [collect_pull_requests]
    without argument both raise [TypeError].  After [run], [collect_commits]
    still raises [TypeError], for [run] stores no filtered list, while
    [collect_pull_requests] without argument works on the repositories the
    search found. *)
Theorem collectors_need_stored_repositories
  (self : GitHubCommitCollector) (found : list Repository) :
  repos self = None -> valid_repos self = None ->
  collect_commits self
  = ([], inl (TypeError "'NoneType' object is not iterable"))
  /\ collect_pull_requests self None
     = ([], inl (TypeError "'NoneType' object is not iterable"))
  /\ collect_commits (set_repos self (Some found))
     = ([], inl (TypeError "'NoneType' object is not iterable"))
  /\ collect_pull_requests (set_repos self (Some found)) None
     = collect_pull_requests self (Some found).
Proof.
  intros Hrepos Hvalid.
  unfold collect_commits, collect_pull_requests.
  cbn [set_repos valid_repos repos]. rewrite Hrepos, Hvalid.
  repeat split; reflexivity.
Qed.

Lemma collectors_need_stored_repositories_witness :
  outcome (collect_commits (collector 200 5 5))
  = inl (TypeError "'NoneType' object is not iterable")
  /\ outcome (collect_pull_requests
                (set_repos (collector 200 5 5) (Some [small_repo])) None)
     = inr [pull_row small_repo (pr 1 (inr false)) false].
Proof.
  destruct (collectors_need_stored_repositories (collector 200 5 5) [small_repo]
              eq_refl eq_refl) as (Hcommits & _ & _ & Hpulls).
  split; [now rewrite Hcommits|]. rewrite Hpulls. reflexivity.
Defined.

End PipelineExtras.

(** *** The classifiers on any response *)

Section ClassifierRuns.
Import Py Spec.

Context {World : Type}.
Variable generate_content : list string -> World -> result Gemini.Response * World.
Variable create :
  string -> list (string * string) -> Z -> World -> result Gpt.Response * World.

(** The Gemini classifier calls the model once and returns a word of its
    vocabulary. *)
Lemma gemini_run (survey msg : string) (w : World) :
  exists t w' s,
    Gemini.classify_commit generate_content survey msg w = (t, w', inr s)
    /\ model_calls t = [Gemini.prompt survey msg]
    /\ s ∈ gemini_vocabulary.
Proof.
  assert (Hvoc : forall tok,
             (if bool_decide (tok ∈ Gemini.categories) then tok
              else "Unknown"%string) ∈ gemini_vocabulary).
  { intros tok. unfold gemini_vocabulary. case_bool_decide as Hin.
    - apply elem_of_app. now left.
    - apply elem_of_app. right. apply list_elem_of_here. }
  assert (Herr : "Error"%string ∈ gemini_vocabulary).
  { unfold gemini_vocabulary. apply elem_of_app. right.
    do 2 apply list_elem_of_further. apply list_elem_of_here. }
  assert (Hnone : "No response"%string ∈ gemini_vocabulary).
  { unfold gemini_vocabulary. apply elem_of_app. right.
    apply list_elem_of_further, list_elem_of_here. }
  destruct (generate_content [Gemini.prompt survey msg] w) as [[e|[[e|txt]]] w']
    eqn:Hcall.
  - rewrite (gemini_caught generate_content _ _ _ _ _ Hcall).
    eexists _, _, _. repeat split. exact Herr.
  - unfold Gemini.classify_commit, Gemini.call_model, try_except_s.
    unfold mbind, MS_bind, bind_s, lift_s, lift. rewrite Hcall.
    cbn [Gemini.text fst snd app]. eexists _, _, _. repeat split. exact Herr.
  - rewrite (gemini_answered generate_content _ _ _ _ _ Hcall).
    destruct txt as [|c txt].
    + eexists _, _, _. repeat split. exact Hnone.
    + destruct (item0 _) as [e|tok].
      * eexists _, _, _. repeat split. exact Herr.
      * eexists _, _, _. repeat split. apply Hvoc.
Qed.

Lemma model_calls_app (t1 t2 : list event) :
  model_calls (t1 ++ t2) = model_calls t1 ++ model_calls t2.
Proof.
  induction t1 as [|ev t1 IH]; [reflexivity|].
  destruct ev; cbn [app model_calls]; rewrite IH; reflexivity.
Qed.

(** The batch loop: one call per commit message, in order, and no more
    entries than messages. *)
Lemma gemini_batch_calls (commits : list string) (survey : string)
  (results : gmap string string) (w : World) :
  exists t w' results',
    fold_s commits
      (fun commit_message results =>
         classification ←
           Gemini.classify_commit generate_content survey commit_message;
         mret (<[commit_message := classification]> results))
      results w
    = (t, w', inr results')
    /\ model_calls t = Gemini.prompt survey <$> commits
    /\ (base.size results' <= base.size results + length commits)%nat
    /\ (forall m s, results' !! m = Some s ->
                    results !! m = Some s \/ s ∈ gemini_vocabulary).
Proof.
  set (body := fun (commit_message : string) (results : gmap string string) =>
                 classification ←
                   Gemini.classify_commit generate_content survey commit_message;
                 mret (<[commit_message := classification]> results)).
  revert results w. induction commits as [|m commits IH]; intros results w.
  - exists [], w, results. repeat split; [cbn; lia | auto].
  - cbn [fold_s]. unfold bind_s at 1, body at 1.
    unfold mbind, MS_bind, bind_s, mret, MS_ret, ret_s.
    destruct (gemini_run survey m w) as (t1 & w1 & s & -> & Hcalls1 & Hvoc).
    destruct (IH (<[m := s]> results) w1)
      as (t2 & w2 & results' & -> & Hcalls2 & Hsize & Hin).
    eexists _, _, _. split; [reflexivity|]. split; [|split].
    + rewrite !model_calls_app, Hcalls1, Hcalls2. reflexivity.
    + cbn [length].
      assert (base.size (<[m := s]> results) <= S (base.size results))%nat.
      { rewrite map_size_insert. destruct (results !! m); cbn; lia. }
      lia.
    + intros m' s' Hlook. destruct (Hin m' s' Hlook) as [Hprev | Hv]; [|now right].
      destruct (decide (m = m')) as [->|Hne].
      * rewrite lookup_insert_eq in Hprev. injection Hprev as <-. now right.
      * rewrite lookup_insert_ne in Hprev by assumption. now left.
Qed.

(** [fold_s] on a list with one more item at its end. *)
Lemma fold_s_snoc {A B S} (l : list A) (x : A) (body : A -> B -> MS S B)
  (b : B) (s : S) :
  fold_s (l ++ [x]) body b s
  = match fold_s l body b s with
    | (t, s', inl e) => (t, s', inl e)
    | (t, s', inr b') =>
        let '(t', s'', r) := body x b' s' in (t ++ t', s'', r)
    end.
Proof.
  revert b s. induction l as [|y l IH]; intros b s.
  - cbn [app fold_s]. unfold bind_s, ret_s.
    destruct (body x b s) as [[t s'] [e|b']]; cbn [app];
      rewrite ?app_nil_r; reflexivity.
  - cbn [app fold_s]. unfold bind_s.
    destruct (body y b s) as [[t0 s0] [e|b0]]; [reflexivity|].
    rewrite IH. destruct (fold_s l body b0 s0) as [[t1 s1] [e|b1]];
      [reflexivity|].
    destruct (body x b1 s1) as [[t2 s2] r]. now rewrite app_assoc.
Qed.

Lemma rstrip_idempotent (s : string) : rstrip (rstrip s) = rstrip s.
Proof.
  induction s as [|c s IH]; [reflexivity|]. cbn [rstrip].
  destruct (rstrip s) as [|c' r] eqn:Hr.
  - destruct (isspace c) eqn:Hc; [reflexivity|]. cbn [rstrip]. now rewrite Hc.
  - cbn [rstrip]. cbn [rstrip] in IH. rewrite IH. reflexivity.
Qed.

Lemma lstrip_head (s : string) :
  match lstrip s with
  | EmptyString => True
  | String c _ => isspace c = false
  end.
Proof.
  induction s as [|c s IH]; [exact I|]. cbn [lstrip].
  destruct (isspace c) eqn:Hc; [exact IH | exact Hc].
Qed.

(** [strip] leaves nothing more to strip. *)
Lemma strip_idempotent (s : string) : strip (strip s) = strip s.
Proof.
  unfold strip. pose proof (lstrip_head s) as Hhead.
  destruct (lstrip s) as [|c t] eqn:Ht; [reflexivity|].
  assert (Hl : lstrip (rstrip (String c t)) = rstrip (String c t)).
  { cbn [rstrip]. destruct (rstrip t); rewrite ?Hhead; cbn [lstrip];
      now rewrite Hhead. }
  rewrite Hl. apply rstrip_idempotent.
Qed.

End ClassifierRuns.

Section ClassifierExtras.
Import Py Spec Examples.

(** Whatever the model does, the Gemini classifier calls it exactly once,
    with the prompt built from the survey and the commit message, and
    returns one of eight strings: a category label, [Unknown],
    [No response] or [Error]. *)
Theorem gemini_answers_from_vocabulary (World : Type)
  (generate_content : list string -> World -> result Gemini.Response * World)
  (survey msg : string) (w : World) :
  exists s,
    (Gemini.classify_commit generate_content survey msg w).2 = inr s
    /\ s ∈ gemini_vocabulary
    /\ model_calls (Gemini.classify_commit generate_content survey msg w).1.1
       = [Gemini.prompt survey msg].
Proof.
  destruct (gemini_run generate_content survey msg w)
    as (t & w' & s & -> & Hcalls & Hvoc).
  exists s. auto.
Qed.

(** The batch classification calls the model once per commit message, in
    the order of the list and also for a message that comes again; its
    dictionary has no more entries than there are messages, and every
    entry is a word of the vocabulary. *)
Theorem gemini_batch_one_call_per_message (World : Type)
  (generate_content : list string -> World -> result Gemini.Response * World)
  (commits : list string) (survey : string) (w : World) :
  exists results,
    (Gemini.classify_multiple_commits generate_content commits survey w).2
    = inr results
    /\ model_calls
         (Gemini.classify_multiple_commits generate_content commits survey w).1.1
       = Gemini.prompt survey <$> commits
    /\ (base.size results <= length commits)%nat
    /\ (forall m s, results !! m = Some s -> s ∈ gemini_vocabulary).
Proof.
  unfold Gemini.classify_multiple_commits.
  destruct (gemini_batch_calls generate_content commits survey ∅ w)
    as (t & w' & results & -> & Hcalls & Hsize & Hin).
  exists results. cbn [fst snd]. split; [reflexivity|]. split; [exact Hcalls|].
  split.
  - rewrite map_size_empty in Hsize. lia.
  - intros m s Hlook. destruct (Hin m s Hlook) as [Hempty|Hv]; [|exact Hv].
    rewrite lookup_empty in Hempty. discriminate.
Qed.

(** The batch works from left to right and the last classification of a
    message wins: the batch on a list followed by one more message is the
    batch on the list, then the classification of that message in the
    world the batch left, stored over any earlier entry of the message. *)
Theorem gemini_batch_last_wins (World : Type)
  (generate_content : list string -> World -> result Gemini.Response * World)
  (commits : list string) (m survey s : string) (w w1 w2 : World)
  (t1 t2 : list event) (results : gmap string string) :
  Gemini.classify_multiple_commits generate_content commits survey w
  = (t1, w1, inr results) ->
  Gemini.classify_commit generate_content survey m w1 = (t2, w2, inr s) ->
  Gemini.classify_multiple_commits generate_content (commits ++ [m]) survey w
  = (t1 ++ t2, w2, inr (<[m := s]> results)).
Proof.
  unfold Gemini.classify_multiple_commits. intros Hbatch Hone.
  rewrite fold_s_snoc, Hbatch.
  unfold mbind, MS_bind, bind_s, mret, MS_ret, ret_s. rewrite Hone.
  now rewrite app_nil_r.
Qed.

Lemma gemini_batch_last_wins_witness :
  (Gemini.classify_multiple_commits gemini_alternating
     (["Fix login"%string] ++ ["Fix login"%string]) "survey" 0%nat).2
  = inr {[ "Fix login"%string := "Adaptive"%string ]}.
Proof.
  rewrite (gemini_batch_last_wins nat gemini_alternating ["Fix login"%string]
             "Fix login" "survey" "Adaptive" 0%nat 1%nat 2%nat
             [GenerateContent (Gemini.prompt "survey" "Fix login")]
             [GenerateContent (Gemini.prompt "survey" "Fix login")]
             {[ "Fix login"%string := "Corrective"%string ]}).
  - cbn [snd]. now rewrite insert_singleton_eq.
  - reflexivity.
  - reflexivity.
Defined.

(** A response that cannot be read is treated like a failed call: when
    the text of a Gemini response raises, or a GPT response holds no
    choice, the classifier prints the error and returns [Error]. *)
Theorem unreadable_responses_give_error (World : Type)
  (generate_content : list string -> World -> result Gemini.Response * World)
  (create : string -> list (string * string) -> Z -> World
            -> result Gpt.Response * World)
  (survey msg model : string) (w : World) :
  (forall e w',
      generate_content [Gemini.prompt survey msg] w
      = (inr {| Gemini.text := inl e |}, w') ->
      Gemini.classify_commit generate_content survey msg w
      = ([GenerateContent (Gemini.prompt survey msg);
          Print ("Error during classification: " ++ exn_str e)%string],
         w', inr "Error"%string))
  /\ (forall w',
         create model (Gpt.messages msg) 0 w = (inr {| Gpt.choices := [] |}, w') ->
         Gpt.classify_commit create msg model w
         = ([ChatCompletion model (Gpt.messages msg);
             Print "Error: list index out of range"],
            w', inr "Error"%string)).
Proof.
  split.
  - intros e w' Hcall.
    unfold Gemini.classify_commit, Gemini.call_model, try_except_s.
    unfold mbind, MS_bind, bind_s, lift_s, lift. rewrite Hcall. reflexivity.
  - intros w' Hcall.
    unfold Gpt.classify_commit, Gpt.call_service, try_except_s.
    unfold mbind, MS_bind, bind_s.
    change [("system"%string, Gpt.SURVEY_TEXT);
            ("user"%string, ("Commit: " ++ msg)%string)]
      with (Gpt.messages msg).
    rewrite Hcall. reflexivity.
Qed.

Lemma unreadable_responses_witness :
  (Gemini.classify_commit gemini_blocked "survey" "Fix login" tt).2
  = inr "Error"%string
  /\ Gpt.classify_commit gpt_no_choice "Fix login" "gpt-4o" tt
     = ([ChatCompletion "gpt-4o" (Gpt.messages "Fix login");
         Print "Error: list index out of range"],
        tt, inr "Error"%string).
Proof.
  destruct (unreadable_responses_give_error unit gemini_blocked gpt_no_choice
              "survey" "Fix login" "gpt-4o" tt) as [Hgemini Hgpt].
  split.
  - now rewrite (Hgemini (ValueError "response has no valid part") tt eq_refl).
  - apply (Hgpt tt). reflexivity.
Defined.

(** Whatever the service does, the GPT classifier returns a string without
    whitespace at either end: stripping its result changes nothing. *)
Theorem gpt_answer_is_stripped (World : Type)
  (create : string -> list (string * string) -> Z -> World
            -> result Gpt.Response * World)
  (msg model : string) (w : World) :
  exists s,
    (Gpt.classify_commit create msg model w).2 = inr s /\ strip s = s.
Proof.
  destruct (create model (Gpt.messages msg) 0 w) as [[e|[[|c cs]]] w'] eqn:Hcall.
  - rewrite (gpt_caught create _ _ _ _ _ Hcall). exists "Error"%string.
    split; reflexivity.
  - unfold Gpt.classify_commit, Gpt.call_service, try_except_s.
    unfold mbind, MS_bind, bind_s.
    change [("system"%string, Gpt.SURVEY_TEXT);
            ("user"%string, ("Commit: " ++ msg)%string)]
      with (Gpt.messages msg).
    rewrite Hcall. exists "Error"%string. split; reflexivity.
  - rewrite (gpt_answered create _ _ _ _ _ _ Hcall).
    eexists. split; [reflexivity|]. apply strip_idempotent.
Qed.

End ClassifierExtras.
